(** * gallica.py: a shallow embedding and its verified properties

    The program downloads the page images of a Gallica document through
    IIIF and assembles them into a PDF.  This file embeds the functions of
    [gallica.py] as executable Rocq definitions and proves the properties
    of the specification about them.

    Modelling conventions.
    - A Python [str] is a [string] whose characters are the code points of
      the text (code points below 256); message literals are kept as the
      bytes of the source file.
    - Durations ([time.sleep] arguments) are rationals ([Q]): decimal
      literals are read as exact fractions and float arithmetic as exact
      arithmetic.
    - A [Path] is the string of its text; [a / b] appends [b] after a
      slash.  Only files are recorded in the file system, not directories.
    - Effects (network requests, sleeps, random draws, the file system)
      are threaded through a state-and-exception monad [M] over a [world];
      the remote server and the random generator are read from an [env].
    - Exceptions are values of [exn]; [try … except Exception] is [catch]. *)

From Stdlib Require Import QArith Qminmax Lqa ZArith Ascii DecimalString DecimalNat Permutation.
From stdpp Require Import gmap strings list fin_maps.

Open Scope string_scope.

#[local] Set Warnings "-register-all".

(** Let [simpl] compute the concatenation of strings again (stdpp turns it
    off). *)
#[local] Arguments String.append !_ _ : simpl nomatch.

(* ===================================================================== *)
(** * Exceptions and results *)
(* ===================================================================== *)

(** The Python exceptions the program can meet.  [ConnectionError] stands
    for every transport-level failure of [requests] (connection refused,
    timeout, too many redirects): those are [RequestException]s that are
    not [HTTPError]s. *)
Inductive exn : Type :=
| ValueError (msg : string)
| RuntimeError (msg : string)
| HTTPError (status : Z)
| ConnectionError
| JSONDecodeError
| AttributeError
| TypeError
| KeyError
| IndexError
| ImportError
| OSError
| SystemExit (code : Z).

Inductive result (A : Type) : Type :=
| Ok (a : A)
| Raise (e : exn).
Arguments Ok {A} a.
Arguments Raise {A} e.

(* ===================================================================== *)
(** * Strings: the pieces of [str] and [re] the program uses *)
(* ===================================================================== *)

Module Str.

Definition code (c : ascii) : nat := nat_of_ascii c.

(** [str.isspace] on code points below 256. *)
Definition is_space (c : ascii) : bool :=
  let n := code c in
  (((9 <=? n) && (n <=? 13)) || ((28 <=? n) && (n <=? 32))
   || (n =? 133) || (n =? 160))%nat.

Fixpoint lstrip (s : string) : string :=
  match s with
  | String c s' => if is_space c then lstrip s' else s
  | EmptyString => EmptyString
  end.

(** [rstrip] drops the trailing whitespace: a character is kept when it
    is not a space or something is kept after it. *)
Fixpoint rstrip (s : string) : string :=
  match s with
  | String c s' =>
      match rstrip s' with
      | EmptyString => if is_space c then EmptyString else String c EmptyString
      | r => String c r
      end
  | EmptyString => EmptyString
  end.

(** [s.strip()] *)
Definition strip (s : string) : string := rstrip (lstrip s).

(** [s.rstrip("/")] *)
Fixpoint rstrip_slash (s : string) : string :=
  match s with
  | String c s' =>
      match rstrip_slash s' with
      | EmptyString => if Ascii.eqb c "/" then EmptyString else String c EmptyString
      | r => String c r
      end
  | EmptyString => EmptyString
  end.

(** Lower-casing of the letters A–Z, the only case folding that matters
    for a pattern made of ASCII letters, digits and punctuation. *)
Definition lower (c : ascii) : ascii :=
  let n := code c in
  if ((65 <=? n) && (n <=? 90))%nat then ascii_of_nat (n + 32) else c.

(** Character comparison of [re], with or without [re.IGNORECASE]. *)
Definition char_eq (ignorecase : bool) (p c : ascii) : bool :=
  if ignorecase then Ascii.eqb (lower p) (lower c) else Ascii.eqb p c.

(** Match the literal [lit] at the start of [s]; the text after it. *)
Fixpoint match_literal (ignorecase : bool) (lit s : string) : option string :=
  match lit with
  | EmptyString => Some s
  | String p lit' =>
      match s with
      | String c s' =>
          if char_eq ignorecase p c then match_literal ignorecase lit' s' else None
      | EmptyString => None
      end
  end.

(** The longest prefix of [s] made of characters of the class, and the
    rest: what a greedy [[…]*] consumes first. *)
Fixpoint span (cls : ascii -> bool) (s : string) : string * string :=
  match s with
  | String c s' =>
      if cls c then let '(r, t) := span cls s' in (String c r, t)
      else (EmptyString, s)
  | EmptyString => (EmptyString, EmptyString)
  end.

(** Greedy [[cls]*] followed by the literal [suffix], with backtracking:
    the longest run of class characters after which [suffix] matches.
    Returns the text matched (run and suffix). *)
Fixpoint star_then (cls : ascii -> bool) (suffix s : string) : option string :=
  let here :=
    match match_literal false suffix s with
    | Some _ => Some suffix
    | None => None
    end in
  match s with
  | String c s' =>
      if cls c then
        match star_then cls suffix s' with
        | Some m => Some (String c m)
        | None => here
        end
      else here
  | EmptyString => here
  end.

(** [[cls]+] followed by [suffix]. *)
Definition plus_then (cls : ascii -> bool) (suffix s : string) : option string :=
  match s with
  | String c s' =>
      if cls c then
        match star_then cls suffix s' with
        | Some m => Some (String c m)
        | None => None
        end
      else None
  | EmptyString => None
  end.

(** [re.search]: the match at the leftmost position where [at_pos]
    succeeds. *)
Fixpoint search {A} (at_pos : string -> option A) (s : string) : option A :=
  match at_pos s with
  | Some m => Some m
  | None =>
      match s with
      | String _ s' => search at_pos s'
      | EmptyString => None
      end
  end.

(** Decimal rendering of a natural number, and [f"{i:04d}"]. *)
Definition decimal (n : nat) : string := NilZero.string_of_uint (Nat.to_uint n).

Fixpoint zeros (k : nat) : string :=
  match k with
  | O => EmptyString
  | S k' => String "0" (zeros k')
  end.

Definition pad04 (n : nat) : string :=
  let d := decimal n in zeros (4 - String.length d) ++ d.

End Str.

(* ===================================================================== *)
(** * URL / ARK parsing *)
(* ===================================================================== *)

(** The characters excluded by the class [[^/?#]]. *)
Definition is_boundary (c : ascii) : bool :=
  Ascii.eqb c "/" || Ascii.eqb c "?" || Ascii.eqb c "#".

Definition ark_prefix : string := "/ark:/12148/".

(** [ARK_RE = re.compile(r"/ark:/12148/([^/?#]+)", re.IGNORECASE)] matched
    at the start of [s]: the content of group 1. *)
Definition ARK_RE_at (s : string) : option string :=
  match Str.match_literal true ark_prefix s with
  | Some s1 =>
      match Str.span (fun c => negb (is_boundary c)) s1 with
      | (EmptyString, _) => None
      | (tok, _) => Some tok
      end
  | None => None
  end.

Definition ark_error : string :=
  "Impossible d'extraire l'ARK depuis l'URL (attendu: .../ark:/12148/<ARK>...).".

Definition ark_from_url (url : string) : result string :=
  match Str.search ARK_RE_at url with
  | None => Raise (ValueError ark_error)
  | Some g1 => Ok (Str.strip g1)
  end.

(* ===================================================================== *)
(** * JSON values with the Python operations applied to them *)
(* ===================================================================== *)

(** The value [json.loads] returns.  A [dict] is an association list read
    by its first binding of a key; numbers are integers. *)
Inductive json : Type :=
| JNull
| JBool (b : bool)
| JNum (n : Z)
| JStr (s : string)
| JArr (l : list json)
| JObj (kvs : list (string * json)).

#[global] Instance result_ret : MRet result := fun A a => Ok a.
#[global] Instance result_bind : MBind result := fun A B f m =>
  match m with
  | Ok a => f a
  | Raise e => Raise e
  end.

Module Py.

(** Truth value of an object: [if v:]. *)
Definition truthy (v : json) : bool :=
  match v with
  | JNull => false
  | JBool b => b
  | JNum n => negb (n =? 0)%Z
  | JStr s => negb (String.eqb s "")
  | JArr l => match l with [] => false | _ => true end
  | JObj kvs => match kvs with [] => false | _ => true end
  end.

Fixpoint assoc (k : string) (kvs : list (string * json)) : option json :=
  match kvs with
  | [] => None
  | (k', v) :: rest => if String.eqb k k' then Some v else assoc k rest
  end.

(** [v.get(k, default)]: only a dict has the method. *)
Definition get (v : json) (k : string) (default : json) : result json :=
  match v with
  | JObj kvs => Ok (from_option id default (assoc k kvs))
  | _ => Raise AttributeError
  end.

(** [v[0]] *)
Definition index0 (v : json) : result json :=
  match v with
  | JArr (x :: _) => Ok x
  | JArr [] => Raise IndexError
  | JStr (String c _) => Ok (JStr (String c EmptyString))
  | JStr EmptyString => Raise IndexError
  | JObj _ => Raise KeyError
  | _ => Raise TypeError
  end.

(** [v[k]] for a string key [k]. *)
Definition item (v : json) (k : string) : result json :=
  match v with
  | JObj kvs =>
      match assoc k kvs with
      | Some x => Ok x
      | None => Raise KeyError
      end
  | _ => Raise TypeError
  end.

Definition json_eqb_str (k : string) (v : json) : bool :=
  match v with
  | JStr s => String.eqb k s
  | _ => false
  end.

(** [k in v] for a string [k]: key of a dict, element of a list,
    substring of a string. *)
Definition contains (k : string) (v : json) : result bool :=
  match v with
  | JObj kvs => Ok (bool_decide (is_Some (assoc k kvs)))
  | JArr l => Ok (existsb (json_eqb_str k) l)
  | JStr s => Ok (bool_decide (is_Some (Str.search (Str.match_literal false k) s)))
  | _ => Raise TypeError
  end.

Fixpoint chars (s : string) : list json :=
  match s with
  | EmptyString => []
  | String c s' => JStr (String c EmptyString) :: chars s'
  end.

(** The elements an iteration over [v] yields. *)
Definition iterate (v : json) : result (list json) :=
  match v with
  | JArr l => Ok l
  | JStr s => Ok (chars s)
  | JObj kvs => Ok (map (fun kv => JStr (fst kv)) kvs)
  | _ => Raise TypeError
  end.

(** [a or b] *)
Definition or_else (a : json) (b : result json) : result json :=
  if truthy a then Ok a else b.

Definition is_nonempty_list (v : json) : bool :=
  match v with
  | JArr (_ :: _) => true
  | _ => false
  end.

End Py.

(** [try: body except Exception: pass], where [body] may [return]: the
    value returned, if any. *)
Definition try_pass {A} (body : result (option A)) : option A :=
  match body with
  | Ok r => r
  | Raise _ => None
  end.

(* ===================================================================== *)
(** * IIIF manifest: canvases and image services *)
(* ===================================================================== *)

Definition manifest_url (ark : string) : string :=
  "https://gallica.bnf.fr/iiif/ark:/12148/" ++ ark ++ "/manifest.json".

(** The double quote character, code 34. *)
Definition double_quote : ascii := ascii_of_nat 34.

Definition is_not_quote (c : ascii) : bool :=
  negb (Ascii.eqb c double_quote || Ascii.eqb c "'").

(** The two patterns of [extract_manifest_from_html], matched at the start
    of [s]: group 0. *)
Definition manifest_abs_at (s : string) : option string :=
  let lit := "https://gallica.bnf.fr/iiif/ark:/12148/" in
  match Str.match_literal false lit s with
  | Some s1 =>
      match Str.plus_then is_not_quote "/manifest.json" s1 with
      | Some m => Some (lit ++ m)
      | None => None
      end
  | None => None
  end.

Definition manifest_rel_at (s : string) : option string :=
  let lit := "/iiif/ark:/12148/" in
  match Str.match_literal false lit s with
  | Some s1 =>
      match Str.plus_then is_not_quote "/manifest.json" s1 with
      | Some m => Some (lit ++ m)
      | None => None
      end
  | None => None
  end.

Definition extract_manifest_from_html (html : string) : option string :=
  match Str.search manifest_abs_at html with
  | Some g0 => Some g0
  | None =>
      match Str.search manifest_rel_at html with
      | Some g0 => Some ("https://gallica.bnf.fr" ++ g0)
      | None => None
      end
  end.

(** [list(iter_canvases(manifest))] *)
Definition iter_canvases (manifest : json) : result (list json) :=
  has_seq ← Py.contains "sequences" manifest;
  seqs_ok ← (if has_seq : bool
             then s ← Py.item manifest "sequences"; Ok (Py.truthy s)
             else Ok false);
  if seqs_ok : bool then
    seqs ← Py.item manifest "sequences";
    seq0 ← Py.index0 seqs;
    canvases ← Py.get seq0 "canvases" (JArr []);
    Py.iterate canvases
  else
    has_items ← Py.contains "items" manifest;
    if has_items : bool then
      items ← Py.get manifest "items" (JArr []);
      Py.iterate items
    else Ok [].

Definition no_service_error : string :=
  "Impossible de trouver le service IIIF image pour une page (structure inattendue).".

(** The IIIF v2 branch of [canvas_image_service_id]: the value returned,
    if the branch returns.  The branch is not inside a [try]. *)
Definition service_id_v2 (canvas : json) : result (option json) :=
  imgs ← Py.get canvas "images" JNull;
  if Py.truthy imgs then
    img0 ← Py.index0 imgs;
    res ← Py.get img0 "resource" (JObj []);
    svc ← Py.get res "service" (JObj []);
    at_id ← Py.get svc "@id" JNull;
    sid ← Py.or_else at_id (Py.get svc "id" JNull);
    if Py.truthy sid then Ok (Some sid) else Ok None
  else Ok None.

(** The body of the [try] of the IIIF v3 branch. *)
Definition service_id_v3_body (items : json) : result (option json) :=
  annopage ← Py.index0 items;
  annos ← Py.item annopage "items";
  anno0 ← Py.index0 annos;
  body ← Py.item anno0 "body";
  svc ← Py.get body "service" JNull;
  if Py.is_nonempty_list svc then
    svc0 ← Py.index0 svc;
    id ← Py.get svc0 "id" JNull;
    r ← Py.or_else id (Py.get svc0 "@id" JNull);
    Ok (Some r)
  else Ok None.

Definition canvas_image_service_id (canvas : json) : result json :=
  r2 ← service_id_v2 canvas;
  match r2 with
  | Some sid => Ok sid
  | None =>
      items ← Py.get canvas "items" (JArr []);
      let r3 := if Py.truthy items then try_pass (service_id_v3_body items) else None in
      match r3 with
      | Some sid => Ok sid
      | None => Raise (RuntimeError no_service_error)
      end
  end.

(** [iiif_jpg_url]; [max_width] is formatted as a decimal integer.  The
    identifier is whatever [canvas_image_service_id] returned: only a
    string has [rstrip]. *)
Definition iiif_jpg_url (service_id : json) (max_width : Z) : result string :=
  match service_id with
  | JStr s =>
      Ok (Str.rstrip_slash s ++ "/full/"
          ++ NilZero.string_of_int (Z.to_int max_width) ++ ",/0/default.jpg")
  | _ => Raise AttributeError
  end.

(* ===================================================================== *)
(** * The world: network, clock, random generator, file system *)
(* ===================================================================== *)

(** What the program does to the outside, in order. *)
Inductive event : Type :=
| EGet (url : string)
| ESleep (seconds : Q).

(** A [requests.Response]: status, the result of [r.json()] when the body
    decodes, [r.text], and the chunks [r.iter_content] yields. *)
Record response : Type := {
  status_code : Z;
  json_body : option json;
  text : string;
  chunks : list (list Byte.byte)
}.

(** The outcome of [session.get]: a response, or a transport failure. *)
Inductive reply : Type :=
| Reply (r : response)
| NoReply.

(** A page of an assembled document: the image file it was made from, the
    bytes of that file, and whether they were decoded to RGB (Pillow) or
    embedded as they are (img2pdf). *)
Record page : Type := {
  page_src : string;
  page_data : list Byte.byte;
  page_rgb : bool
}.

Inductive file : Type :=
| FBytes (data : list Byte.byte)
| FPdf (pages : list page).

(** The environment of a run.  [server url n] answers a request for [url]
    issued after [n] earlier requests; [random n] is the [n]-th value of
    [random.random()].  The last four fields describe the two optional
    libraries: whether the import succeeds, on which list of image files
    [img2pdf.convert] succeeds, and which image file Pillow decodes. *)
Record env : Type := {
  server : string -> nat -> reply;
  random : nat -> Q;
  has_img2pdf : bool;
  img2pdf_accepts : list (list Byte.byte) -> bool;
  has_pillow : bool;
  pillow_decodes : list Byte.byte -> bool
}.

Record world : Type := {
  fs : gmap string file;
  trace : list event;
  requests : nat;
  draws : nat
}.

Definition M (A : Type) : Type := world -> result A * world.

#[global] Instance M_ret : MRet M := fun A a w => (Ok a, w).
#[global] Instance M_bind : MBind M := fun A B f m w =>
  match m w with
  | (Ok a, w') => f a w'
  | (Raise e, w') => (Raise e, w')
  end.

Definition raise {A} (e : exn) : M A := fun w => (Raise e, w).

(** Lift a pure computation that may raise. *)
Definition lift {A} (r : result A) : M A := fun w => (r, w).

(** Run [m] and hand its outcome back as a value: the basis of [try]. *)
Definition attempt {A} (m : M A) : M (result A) := fun w =>
  let '(r, w') := m w in (Ok r, w').

(** [try: body except Exception: pass] around a body that may [return]. *)
Definition try_except_pass {R} (body : M (option R)) : M (option R) :=
  r ← attempt body;
  match r with
  | Ok v => mret v
  | Raise _ => mret None
  end.

(** A [for] loop whose body may [return] a value ([Some]) or go on to the
    next element ([None]). *)
Fixpoint for_each {A R} (xs : list A) (body : A -> M (option R)) : M (option R) :=
  match xs with
  | [] => mret None
  | x :: rest =>
      r ← body x;
      match r with
      | Some v => mret (Some v)
      | None => for_each rest body
      end
  end.

Definition log (e : event) (w : world) : world :=
  {| fs := fs w; trace := trace w ++ [e]; requests := requests w; draws := draws w |}.

Definition set_fs (f : gmap string file) (w : world) : world :=
  {| fs := f; trace := trace w; requests := requests w; draws := draws w |}.

(** [time.sleep(d)] *)
Definition sleep (d : Q) : M unit := fun w => (Ok tt, log (ESleep d) w).

Definition file_size (f : file) : Z :=
  match f with
  | FBytes data => Z.of_nat (length data)
  | FPdf pages => Z.of_nat (length (concat (map page_data pages)))
  end.

(** [p.exists() and p.stat().st_size > 50_000] *)
Definition already_fetched (p : string) : M bool := fun w =>
  (Ok (match fs w !! p with
       | Some f => (50000 <? file_size f)%Z
       | None => false
       end), w).

(** Opening [p] for writing and writing to it: the file then holds [f]. *)
Definition write_file (p : string) (f : file) : M unit := fun w =>
  (Ok tt, set_fs (<[p := f]> (fs w)) w).

(** [os.replace(src, dst)] *)
Definition os_replace (src dst : string) : M unit := fun w =>
  match fs w !! src with
  | Some f => (Ok tt, set_fs (<[dst := f]> (delete src (fs w))) w)
  | None => (Raise OSError, w)
  end.

(** [Response.raise_for_status] of requests: an [HTTPError] for a status
    from 400 to 599, nothing otherwise. *)
Definition raise_for_status (r : response) : M unit :=
  if ((400 <=? status_code r) && (status_code r <? 600))%Z
  then raise (HTTPError (status_code r))
  else mret tt.

(** [r.json()] *)
Definition response_json (r : response) : M json :=
  match json_body r with
  | Some j => mret j
  | None => raise JSONDecodeError
  end.

Definition MAX_TRIES : nat := 8.
Definition BASE_BACKOFF : Q := 6 # 10.
Definition MAX_BACKOFF : Q := 12.

Definition is_retryable (status : Z) : bool :=
  ((status =? 403) || (status =? 429) || (status =? 503))%Z.

(** The bytes the streaming loop writes: the non-empty chunks in order. *)
Definition written (cs : list (list Byte.byte)) : list Byte.byte :=
  concat (filter (fun c => c <> []) cs).

Definition download_error (url : string) : string :=
  "Echec téléchargement après " ++ Str.decimal MAX_TRIES ++ " essais: " ++ url.

Definition manifest_error : string :=
  "403 sur le manifest IIIF et aucun manifest alternatif trouvé dans le HTML.
→ Essaie depuis un autre réseau (4G), ou ouvre la page Gallica une fois dans ton navigateur, puis relance.".

Definition no_pages_error : string :=
  "Aucune page trouvée dans le manifest (structure inattendue).".

Section Effects.

Variable E : env.

(** [session.get(url, …)]: one request on the network.  The session
    (headers, cookies, connection pool, and the per-thread session of
    [thread_session]) does not appear: the answer of the server is a
    function of the URL and of the number of requests made before. *)
Definition session_get (url : string) : M response := fun w =>
  let w' := {| fs := fs w; trace := trace w ++ [EGet url];
               requests := S (requests w); draws := draws w |} in
  match server E url (requests w) with
  | Reply r => (Ok r, w')
  | NoReply => (Raise ConnectionError, w')
  end.

(** [random.uniform(a, b)], that is [a + (b - a) * random.random()]. *)
Definition random_uniform (a b : Q) : M Q := fun w =>
  (Ok (a + (b - a) * random E (draws w))%Q,
   {| fs := fs w; trace := trace w; requests := requests w; draws := S (draws w) |}).

Definition fetch (url : string) (expect_json : bool) : M response :=
  r ← session_get url;
  _ ← raise_for_status r;
  _ ← (if expect_json then _ ← response_json r; mret tt else mret tt);
  mret r.

Definition viewer_urls (ark : string) : list string :=
  [ "https://gallica.bnf.fr/ark:/12148/" ++ ark ++ "/f1.item";
    "https://gallica.bnf.fr/ark:/12148/" ++ ark ].

Fixpoint warmup_loop (urls : list string) (last_err : option exn) : M unit :=
  match urls with
  | [] =>
      match last_err with
      | Some e => raise e
      | None => mret tt
      end
  | u :: rest =>
      r ← attempt (session_get u);
      match r with
      | Ok _ => mret tt
      | Raise e => warmup_loop rest (Some e)
      end
  end.

Definition warmup (ark : string) : M unit := warmup_loop (viewer_urls ark) None.

(** One round of the second strategy of [get_manifest]. *)
Definition warmup_round (ark : string) (round : nat) : M (option json) :=
  _ ← sleep ((7 # 10) * inject_Z (Z.of_nat round));
  try_except_pass
    (_ ← warmup ark;
     r ← fetch (manifest_url ark) true;
     j ← response_json r;
     mret (Some j)).

(** One candidate page of the third strategy. *)
Definition scrape (u : string) : M (option json) :=
  try_except_pass
    (rr ← session_get u;
     _ ← raise_for_status rr;
     match extract_manifest_from_html (text rr) with
     | Some alt =>
         r ← fetch alt true;
         j ← response_json r;
         mret (Some j)
     | None => mret None
     end).

(** The third strategy: scrape the viewer pages; the final error when
    none gives a manifest. *)
Definition html_fallback (ark : string) : M json :=
  r3 ← for_each (viewer_urls ark) scrape;
  match r3 with
  | Some j => mret j
  | None => raise (RuntimeError manifest_error)
  end.

(** Strategies 2 and 3, entered after a 403 on the direct fetch. *)
Definition get_manifest_fallback (ark : string) : M json :=
  r2 ← for_each (seq 1 3) (warmup_round ark);
  match r2 with
  | Some j => mret j
  | None => html_fallback ark
  end.

(** [get_manifest].  An [HTTPError] raised by [raise_for_status] always
    carries its response, so the test [e.response is None] is false. *)
Definition get_manifest (ark : string) : M json :=
  r1 ← attempt (r ← fetch (manifest_url ark) true; response_json r);
  match r1 with
  | Ok j => mret j
  | Raise (HTTPError status) =>
      if (status =? 403)%Z then get_manifest_fallback ark
      else raise (HTTPError status)
  | Raise e => raise e
  end.

(** The body of the retry loop of [download_with_backoff]. *)
Definition download_attempt (url out_path : string) (pause : Q) (attempt_no : nat)
  : M (option unit) :=
  r ← session_get url;
  if (status_code r =? 200)%Z then
    let tmp := out_path ++ ".part" in
    _ ← write_file tmp (FBytes (written (chunks r)));
    _ ← os_replace tmp out_path;
    _ ← (if negb (Qle_bool pause 0) then sleep pause else mret tt);
    mret (Some tt)
  else if is_retryable (status_code r) then
    jitter ← random_uniform 0 (35 # 100);
    let wait := (BASE_BACKOFF * inject_Z (2 ^ Z.of_nat (attempt_no - 1)) + jitter)%Q in
    _ ← sleep (Qmin wait MAX_BACKOFF);
    mret None
  else
    _ ← raise_for_status r;
    mret None.

Definition download_with_backoff (url out_path : string) (pause : Q) : M unit :=
  skip ← already_fetched out_path;
  if skip : bool then mret tt
  else
    r ← for_each (seq 1 MAX_TRIES) (download_attempt url out_path pause);
    match r with
    | Some _ => mret tt
    | None => raise (RuntimeError (download_error url))
    end.

End Effects.

(* ===================================================================== *)
(** * Parallel download *)
(* ===================================================================== *)

Section Pipeline.

Variable E : env.

(** What a worker does with one submitted job.  An exception raised by
    the job is stored in its future; [parallel_download] never asks a
    future for its result, so the exception goes no further. *)
Definition run_job (pause : Q) (job : string * string) : M unit :=
  _ ← attempt (download_with_backoff E (fst job) (snd job) pause);
  mret tt.

(** The jobs run to completion one after the other in the order
    [order], a list of positions in [jobs]: the order of completion the
    thread pool happened to produce. *)
Fixpoint run_jobs (pause : Q) (jobs : list (string * string)) (order : list nat)
  : M unit :=
  match order with
  | [] => mret tt
  | i :: rest =>
      _ ← (match jobs !! i with
           | Some job => run_job pause job
           | None => mret tt
           end);
      run_jobs pause jobs rest
  end.

Definition parallel_download (jobs : list (string * string)) (order : list nat)
    (pause : Q) : M unit :=
  match jobs with
  | [] => mret tt
  | _ => run_jobs pause jobs order
  end.

(* =================================================================== *)
(** * PDF assembly *)
(* =================================================================== *)

(** The text of an exception as a message renders it. *)
Definition exn_name (e : exn) : string :=
  match e with
  | ValueError m => m
  | RuntimeError m => m
  | HTTPError _ => "HTTPError"
  | ConnectionError => "ConnectionError"
  | JSONDecodeError => "JSONDecodeError"
  | AttributeError => "AttributeError"
  | TypeError => "TypeError"
  | KeyError => "KeyError"
  | IndexError => "list index out of range"
  | ImportError => "No module named 'PIL'"
  | OSError => "OSError"
  | SystemExit _ => "SystemExit"
  end.

Definition assemble_error (e : exn) : string :=
  "Impossible d'assembler en PDF. Installe img2pdf ou pillow:
  python3 -m pip install img2pdf
ou
  python3 -m pip install pillow
Erreur: " ++ exn_name e.

(** Read the image file at [p]. *)
Definition read_image (p : string) : M (list Byte.byte) := fun w =>
  match fs w !! p with
  | Some (FBytes data) => (Ok data, w)
  | _ => (Raise OSError, w)
  end.

Fixpoint read_images (ps : list string) : M (list (list Byte.byte)) :=
  match ps with
  | [] => mret []
  | p :: rest =>
      d ← read_image p;
      ds ← read_images rest;
      mret (d :: ds)
  end.

Definition embedded (p : string) (d : list Byte.byte) : page :=
  {| page_src := p; page_data := d; page_rgb := false |}.

(** [img2pdf.convert(paths)]: one page per path, in the order of the
    list, each embedding the bytes of its file. *)
Definition img2pdf_convert (paths : list string) : M (list page) :=
  ds ← read_images paths;
  if img2pdf_accepts E ds then mret (zip_with embedded paths ds)
  else raise (ValueError "img2pdf").

(** The first [try] of [assemble_pdf]. *)
Definition assemble_img2pdf (images : list string) (out_pdf : string) : M unit :=
  if has_img2pdf E then
    _ ← write_file out_pdf (FBytes []);
    pages ← img2pdf_convert images;
    write_file out_pdf (FPdf pages)
  else raise ImportError.

(** [Image.open(p).convert("RGB")] *)
Definition pil_open_rgb (p : string) : M page :=
  d ← read_image p;
  if pillow_decodes E d
  then mret {| page_src := p; page_data := d; page_rgb := true |}
  else raise OSError.

Fixpoint pil_open_all (ps : list string) : M (list page) :=
  match ps with
  | [] => mret []
  | p :: rest =>
      im ← pil_open_rgb p;
      ims ← pil_open_all rest;
      mret (im :: ims)
  end.

(** The second [try] of [assemble_pdf].  [first.save(out_pdf,
    save_all=True, append_images=rest)] writes [first] and then the
    pages of [rest] in order. *)
Definition assemble_pillow (images : list string) (out_pdf : string) : M unit :=
  if has_pillow E then
    pil_images ← pil_open_all images;
    match pil_images with
    | [] => raise IndexError
    | first :: rest => write_file out_pdf (FPdf (first :: rest))
    end
  else raise ImportError.

Definition assemble_pdf (images : list string) (out_pdf : string) : M unit :=
  r1 ← attempt (assemble_img2pdf images out_pdf);
  match r1 with
  | Ok _ => mret tt
  | Raise _ =>
      r2 ← attempt (assemble_pillow images out_pdf);
      match r2 with
      | Ok _ => mret tt
      | Raise e => raise (RuntimeError (assemble_error e))
      end
  end.

(* =================================================================== *)
(** * Main *)
(* =================================================================== *)

Record args : Type := {
  arg_url : option string;
  arg_ark : option string;
  arg_max_width : Z;
  arg_workers : nat;
  arg_sleep : Q;
  arg_out : option string;
  arg_dir : option string;
  arg_keep : bool
}.

(** The value of an optional string option when it is set and not
    empty: what [if args.x] tests. *)
Definition given (o : option string) : option string :=
  match o with
  | Some EmptyString => None
  | _ => o
  end.

Definition page_path (img_dir : string) (i : nat) : string :=
  img_dir ++ "/" ++ "page_" ++ Str.pad04 i ++ ".jpg".

(** The loop that builds the jobs; [i] is the ordinal of the first
    canvas of [canvases]. *)
Fixpoint build_jobs (img_dir : string) (max_width : Z) (i : nat) (canvases : list json)
  : M (list (string * string)) :=
  match canvases with
  | [] => mret []
  | canvas :: rest =>
      let out_img := page_path img_dir i in
      skip ← already_fetched out_img;
      if skip : bool then build_jobs img_dir max_width (S i) rest
      else
        sid ← lift (canvas_image_service_id canvas);
        url ← lift (iiif_jpg_url sid max_width);
        jobs ← build_jobs img_dir max_width (S i) rest;
        mret ((url, out_img) :: jobs)
  end.

Definition page_paths (img_dir : string) (n : nat) : list string :=
  map (page_path img_dir) (seq 1 n).

(** [[p for p in images if not p.exists()]] *)
Definition missing_images (images : list string) : M (list string) := fun w =>
  (Ok (filter (fun p => fs w !! p = None) images), w).

Definition missing_error (missing : list string) : string :=
  "Il manque " ++ Str.decimal (length missing) ++ " images (ex: "
  ++ hd "" missing ++ "). Relance le script.".

(** Steps 2 to 4 of [main]: from the canvases to the assembled PDF. *)
Definition download_and_assemble (a : args) (img_dir out_pdf : string)
    (canvases : list json) (order : list nat) : M unit :=
  jobs ← build_jobs img_dir (arg_max_width a) 1 canvases;
  _ ← parallel_download jobs order (arg_sleep a);
  let images := page_paths img_dir (length canvases) in
  missing ← missing_images images;
  match missing with
  | _ :: _ => raise (RuntimeError (missing_error missing))
  | [] => assemble_pdf images out_pdf
  end.

(** [main] up to the assembled PDF; [order] is the completion order of
    the download jobs.  Progress messages are not modelled, nor is the
    creation of the image directory (only files are recorded).  The last
    step of [main], the removal of the working directory, is
    [Cleaner.safe_rmtree] below. *)
Definition main (a : args) (order : list nat) : M unit :=
  match given (arg_url a), given (arg_ark a) with
  | None, None => raise (SystemExit 2)
  | u, k =>
      ark ← (match u with
             | Some url => lift (ark_from_url url)
             | None => mret (Str.strip (default "" k))
             end);
      let out_pdf := default (ark ++ ".pdf") (given (arg_out a)) in
      let workdir := default ("gallica_" ++ ark) (given (arg_dir a)) in
      let img_dir := workdir ++ "/" ++ "images" in
      _ ← attempt (warmup E ark);
      manifest ← get_manifest E ark;
      canvases ← lift (iter_canvases manifest);
      match canvases with
      | [] => raise (RuntimeError no_pages_error)
      | _ => download_and_assemble a img_dir out_pdf canvases order
      end
  end.

End Pipeline.

(* ===================================================================== *)
(** * Safe cleanup *)
(* ===================================================================== *)

Module Cleaner.

(** A resolved path: the components below the file-system root, so the
    root itself is the empty list.  Two [Path]s are equal when their
    components are. *)
Definition path : Type := list string.

(** [p.name]: the last component, empty for the root. *)
Definition name (p : path) : string := default "" (last p).

Fixpoint render (p : path) : string :=
  match p with
  | [] => ""
  | c :: rest => "/" ++ c ++ render rest
  end.

(** [str(p)] *)
Definition path_str (p : path) : string :=
  match p with
  | [] => "/"
  | _ => render p
  end.

(** The operating system as the cleaner sees it: [resolve] is
    [Path(text).resolve()], [home] and [cwd] are the texts of
    [Path.home()] and [Path.cwd()]. *)
Record os : Type := {
  resolve : string -> path;
  home : string;
  cwd : string
}.

(** The directory tree (the resolved paths that exist) and what was
    printed. *)
Record state : Type := {
  tree : gset path;
  printed : list string
}.

Definition print (line : string) (st : state) : state :=
  {| tree := tree st; printed := printed st ++ [line] |}.

Definition is_under (d p : path) : bool := bool_decide (d `prefix_of` p).

(** [shutil.rmtree(d, ignore_errors=False)]: removes [d] and everything
    below it; raises when [d] does not exist. *)
Definition rmtree (d : path) (st : state) : result unit * state :=
  if bool_decide (d ∈ tree st)
  then (Ok tt, {| tree := filter (fun p => is_under d p = false) (tree st);
                  printed := printed st |})
  else (Raise OSError, st).

Definition forbidden (o : os) : list path :=
  [resolve o "/"; resolve o (home o); resolve o (cwd o)].

Definition expected_name (ark : string) : string := "gallica_" ++ ark.

Definition safe_rmtree (o : os) (workdir : string) (ark : string) (st : state)
  : result bool * state :=
  let workdir := resolve o workdir in
  if bool_decide (workdir ∈ forbidden o) then
    (Ok false,
     print ("⚠️ Refus suppression (dossier critique): " ++ path_str workdir) st)
  else
    let expected := expected_name ark in
    if negb (String.eqb (name workdir) expected) then
      (Ok false,
       print "    → Si tu veux un dossier custom, garde-le avec --keep ou renomme-le au format gallica_<ark>."
         (print ("⚠️ Refus suppression (nom inattendu): " ++ name workdir
                 ++ " (attendu: " ++ expected ++ ")") st))
    else
      match rmtree workdir st with
      | (Ok _, st') => (Ok true, st')
      | (Raise e, st') => (Raise e, st')
      end.

End Cleaner.

(* ===================================================================== *)
(** * Vocabulary of the statements *)
(* ===================================================================== *)

(** Every character of [s] satisfies [p]. *)
Fixpoint all_chars (p : ascii -> bool) (s : string) : bool :=
  match s with
  | EmptyString => true
  | String c s' => p c && all_chars p s'
  end.

(** The text of [s] from position [k] on. *)
Fixpoint string_drop (k : nat) (s : string) : string :=
  match k, s with
  | S k', String _ s' => string_drop k' s'
  | _, _ => s
  end.

(** [s] with its letters A–Z in lower case. *)
Fixpoint fold_case (s : string) : string :=
  match s with
  | EmptyString => EmptyString
  | String c s' => String (Str.lower c) (fold_case s')
  end.

(** [s] is empty or starts with a character that satisfies [p]. *)
Definition ends_or_starts (p : ascii -> bool) (s : string) : Prop :=
  match s with
  | EmptyString => True
  | String c _ => p c = true
  end.

(** [url] is [pre], then ["/ark:/12148/"] in any letter case, then the
    non-empty token [tok] without [/], [?] or [#], then [rest], which is
    empty or starts with one of those three characters. *)
Definition ark_occurrence (url pre tok rest : string) : Prop :=
  exists lit,
    url = pre ++ lit ++ tok ++ rest /\
    fold_case lit = ark_prefix /\
    tok <> EmptyString /\
    all_chars (fun c => negb (is_boundary c)) tok = true /\
    ends_or_starts is_boundary rest.

(** The same with the prefix in lower case only, as the pattern is
    written. *)
Definition ark_occurrence_exact (url pre tok rest : string) : Prop :=
  url = pre ++ ark_prefix ++ tok ++ rest /\
  tok <> EmptyString /\
  all_chars (fun c => negb (is_boundary c)) tok = true /\
  ends_or_starts is_boundary rest.

(** The download of [out_path] is still to do: the file is absent or
    holds 50,000 bytes or less. *)
Definition to_download (w : world) (out_path : string) : Prop :=
  match fs w !! out_path with
  | Some f => (file_size f <= 50000)%Z
  | None => True
  end.

(** The file at [out_path] exists and holds more than 50,000 bytes. *)
Definition fetched (w : world) (out_path : string) : Prop :=
  exists f, fs w !! out_path = Some f /\ (50000 < file_size f)%Z.

(** Every request is answered, with a status that satisfies [ok]. *)
Definition always_answers (E : env) (ok : Z -> bool) : Prop :=
  forall url n, exists r, server E url n = Reply r /\ ok (status_code r) = true.

(** The jitter of the retry that uses the [n]-th random value, and the
    wait before the retry that follows attempt [k]. *)
Definition jitter (E : env) (n : nat) : Q := (0 + ((35 # 100) - 0) * random E n)%Q.

Definition backoff_wait (k : nat) (j : Q) : Q :=
  Qmin ((6 # 10) * inject_Z (2 ^ Z.of_nat (k - 1)) + j) 12.

(** The world after [n] more requests, the events [evs] and [d] more
    random draws, the files unchanged. *)
Definition after (w : world) (evs : list event) (n d : nat) : world :=
  {| fs := fs w; trace := trace w ++ evs;
     requests := (n + requests w)%nat; draws := (d + draws w)%nat |}.

Fixpoint count_gets (evs : list event) : nat :=
  match evs with
  | [] => 0
  | EGet _ :: rest => S (count_gets rest)
  | ESleep _ :: rest => count_gets rest
  end.

Fixpoint sleeps (evs : list event) : list Q :=
  match evs with
  | [] => []
  | ESleep d :: rest => d :: sleeps rest
  | EGet _ :: rest => sleeps rest
  end.

(** The events of a run of retries over the attempts [ks], the first of
    which uses the [d]-th random value: a request, then the wait. *)
Fixpoint retry_events (E : env) (url : string) (ks : list nat) (d : nat) : list event :=
  match ks with
  | [] => []
  | k :: rest =>
      EGet url :: ESleep (backoff_wait k (jitter E d)) :: retry_events E url rest (S d)
  end.

(** What fetching a JSON document makes of a reply: the decoded body, or
    the exception of [session.get], [raise_for_status] or [r.json()]. *)
Definition fetch_json_outcome (rp : reply) : result json :=
  match rp with
  | NoReply => Raise ConnectionError
  | Reply r =>
      if ((400 <=? status_code r) && (status_code r <? 600))%Z
      then Raise (HTTPError (status_code r))
      else match json_body r with
           | Some j => Ok j
           | None => Raise JSONDecodeError
           end
  end.

(** The requests of a warm-up that starts after [n] earlier requests, and
    whether one of the two viewer pages answered. *)
Definition warmup_gets (E : env) (ark : string) (n : nat) : list event * bool :=
  match viewer_urls ark with
  | [v1; v2] =>
      match server E v1 n with
      | Reply _ => ([EGet v1], true)
      | NoReply =>
          match server E v2 (S n) with
          | Reply _ => ([EGet v1; EGet v2], true)
          | NoReply => ([EGet v1; EGet v2], false)
          end
      end
  | _ => ([], false)
  end.

(** The first of the two viewer pages of a document. *)
Definition viewer_page (ark : string) : string :=
  "https://gallica.bnf.fr/ark:/12148/" ++ ark ++ "/f1.item".

(** The sleep that opens round [k] of the warm-up retries: 0.7 * k
    seconds. *)
Definition round_wait (k : nat) : Q := (7 # 10) * inject_Z (Z.of_nat k).

Definition round_sleep (k : nat) : event := ESleep (round_wait k).

(** The file at [out_pdf] is a document written by the Pillow fallback:
    its pages were decoded to RGB. *)
Definition made_by_pillow (w : world) (out_pdf : string) : Prop :=
  exists p ps, fs w !! out_pdf = Some (FPdf (p :: ps)) /\ page_rgb p = true.

(** [needle] occurs in [s]. *)
Definition occurs_in (needle s : string) : bool :=
  bool_decide (is_Some (Str.search (Str.match_literal false needle) s)).

(* ===================================================================== *)
(** * Sample data for the examples *)
(* ===================================================================== *)

(** A IIIF v3 canvas whose image service entry carries a type and a
    profile but no identifier:
    [{"items": [{"items": [{"body": {"service":
        [{"type": "ImageService2", "profile": "level2"}]}}]}]}]. *)
Definition canvas_v3_without_id : json :=
  JObj [("items",
    JArr [JObj [("items",
      JArr [JObj [("body",
        JObj [("service",
          JArr [JObj [("type", JStr "ImageService2");
                      ("profile", JStr "level2")]])])]])]])].

(** A IIIF v2 canvas whose resource lists its services in an array:
    [{"images": [{"resource": {"service": [{"@id": "https://x/iiif/1"}]}}]}]. *)
Definition canvas_v2_service_list : json :=
  JObj [("images",
    JArr [JObj [("resource",
      JObj [("service", JArr [JObj [("@id", JStr "https://x/iiif/1")]])])]])].

(** A machine where the user [u] works in [/home/u/books]. *)
Definition sample_os : Cleaner.os :=
  {| Cleaner.resolve := fun p =>
       if String.eqb p "/" then []
       else if String.eqb p "/home/gallica_x" then ["home"; "gallica_x"]
       else if String.eqb p "/home/gallica_x/books" then ["home"; "gallica_x"; "books"]
       else if String.eqb p "gallica_x" then ["home"; "gallica_x"; "books"; "gallica_x"]
       else ["home"; "gallica_x"; "books"; p];
     Cleaner.home := "/home/gallica_x";
     Cleaner.cwd := "/home/gallica_x/books" |}.

Definition sample_tree : Cleaner.state :=
  {| Cleaner.tree :=
       {[ []; ["home"]; ["home"; "gallica_x"]; ["home"; "gallica_x"; "books"];
          ["home"; "gallica_x"; "books"; "gallica_x"];
          ["home"; "gallica_x"; "books"; "gallica_x"; "images"] ]};
     Cleaner.printed := [] |}.

(** A server that answers every request with the status [status] and the
    body [body], and a random generator stuck at one half. *)
Definition env_always (status : Z) (body : list (list Byte.byte)) : env :=
  {| server := fun _ _ =>
       Reply {| status_code := status; json_body := None; text := "";
                chunks := body |};
     random := fun _ => 1 # 2;
     has_img2pdf := true;
     img2pdf_accepts := fun _ => true;
     has_pillow := true;
     pillow_decodes := fun _ => true |}.

Definition empty_world : world :=
  {| fs := ∅; trace := []; requests := 0; draws := 0 |}.

Definition sample_url : string :=
  "https://gallica.bnf.fr/iiif/ark:/12148/bd6t54208770t/f1/full/2000,/0/default.jpg".

Definition sample_out : string := "gallica_bd6t54208770t/images/page_0001.jpg".

(** A body of three bytes in one chunk, and one of 50,001 bytes. *)
Definition small_body : list (list Byte.byte) := [[Byte.xff; Byte.xd8; Byte.xff]].

Definition large_body : list (list Byte.byte) :=
  [repeat Byte.xff (Z.to_nat 50001)].

Definition sample_jobs : list (string * string) := [(sample_url, sample_out)].

(** The world a first run of the download engine leaves, starting from an
    empty workspace, when the server sends [body] for the page. *)
Definition after_first_run (body : list (list Byte.byte)) : world :=
  (parallel_download (env_always 200 body) sample_jobs [0%nat] 0 empty_world).2.

(** A network on which the manifest URL of [ark] answers 403 and nothing
    else answers at all. *)
Definition env_403_offline (ark : string) : env :=
  {| server := fun url _ =>
       if String.eqb url (manifest_url ark)
       then Reply {| status_code := 403; json_body := None; text := ""; chunks := [] |}
       else NoReply;
     random := fun _ => 1 # 2;
     has_img2pdf := true;
     img2pdf_accepts := fun _ => true;
     has_pillow := true;
     pillow_decodes := fun _ => true |}.

Definition sample_ark : string := "bd6t54208770t".

(** A machine with both libraries installed, on which [img2pdf.convert]
    rejects the images (as it does for images with an alpha channel) and
    Pillow decodes them. *)
Definition env_img2pdf_rejects : env :=
  {| server := fun _ _ => NoReply;
     random := fun _ => 1 # 2;
     has_img2pdf := true;
     img2pdf_accepts := fun _ => false;
     has_pillow := true;
     pillow_decodes := fun _ => true |}.

(** A machine with neither library. *)
Definition env_no_library : env :=
  {| server := fun _ _ => NoReply;
     random := fun _ => 1 # 2;
     has_img2pdf := false;
     img2pdf_accepts := fun _ => true;
     has_pillow := false;
     pillow_decodes := fun _ => true |}.

(** A workspace holding one page. *)
Definition one_page_world : world :=
  {| fs := {[ sample_out := FBytes [Byte.xff; Byte.xd8; Byte.xff] ]};
     trace := []; requests := 0; draws := 0 |}.

(** A IIIF v2 canvas served by the image service [sid]. *)
Definition canvas_v2 (sid : string) : json :=
  JObj [("images",
    JArr [JObj [("resource", JObj [("service", JObj [("@id", JStr sid)])])]])].

Definition two_canvases : list json :=
  [canvas_v2 "https://gallica.bnf.fr/iiif/ark:/12148/bd6t54208770t/f1";
   canvas_v2 "https://gallica.bnf.fr/iiif/ark:/12148/bd6t54208770t/f2"].

Definition sample_args : args :=
  {| arg_url := None; arg_ark := Some sample_ark; arg_max_width := 2000;
     arg_workers := 4; arg_sleep := 0; arg_out := None; arg_dir := None;
     arg_keep := false |}.

(** A run over two canvases, from an empty workspace, in which the second
    page finishes downloading before the first. *)
Definition two_page_run : result unit * world :=
  download_and_assemble (env_always 200 small_body) sample_args "w/images" "out.pdf"
    two_canvases [1%nat; 0%nat] empty_world.

(** The scenario of the specification: the manifest URL always answers
    403, the viewer page links another manifest URL, which serves a
    manifest of three canvases, and every image is served. *)
Definition alt_manifest_url : string :=
  "https://gallica.bnf.fr/iiif/ark:/12148/bd6t54208770t.r=0/manifest.json".

Definition three_canvas_manifest : json :=
  JObj [("@id", JStr alt_manifest_url);
        ("sequences",
         JArr [JObj [("canvases",
           JArr [canvas_v2 "https://gallica.bnf.fr/iiif/ark:/12148/bd6t54208770t/f1";
                 canvas_v2 "https://gallica.bnf.fr/iiif/ark:/12148/bd6t54208770t/f2";
                 canvas_v2 "https://gallica.bnf.fr/iiif/ark:/12148/bd6t54208770t/f3/"])]])].

Definition env_scraping : env :=
  {| server := fun url _ =>
       if String.eqb url (manifest_url sample_ark) then
         Reply {| status_code := 403; json_body := None; text := ""; chunks := [] |}
       else if String.eqb url (viewer_page sample_ark) then
         Reply {| status_code := 200; json_body := None;
                  text := "<a href='/iiif/ark:/12148/bd6t54208770t.r=0/manifest.json'>IIIF</a>";
                  chunks := [] |}
       else if String.eqb url alt_manifest_url then
         Reply {| status_code := 200; json_body := Some three_canvas_manifest;
                  text := ""; chunks := [] |}
       else
         Reply {| status_code := 200; json_body := None; text := "";
                  chunks := small_body |};
     random := fun _ => 1 # 2;
     has_img2pdf := true;
     img2pdf_accepts := fun _ => true;
     has_pillow := false;
     pillow_decodes := fun _ => false |}.

Definition scraping_run : result unit * world :=
  main env_scraping sample_args [2%nat; 0%nat; 1%nat] empty_world.

(* ===================================================================== *)
(** * Vocabulary of the further properties *)
(* ===================================================================== *)

(** The second of the two viewer pages of a document. *)
Definition viewer_root (ark : string) : string :=
  "https://gallica.bnf.fr/ark:/12148/" ++ ark.


(** The pause after a stored page: [if sleep and sleep > 0]. *)
Definition pause_events (pause : Q) : list event :=
  if negb (Qle_bool pause 0) then [ESleep pause] else [].

(** The file system after [data] was written to the [.part] sibling of
    [out_path] and the sibling renamed to [out_path]. *)
Definition stored (files : gmap string file) (out_path : string)
    (data : list Byte.byte) : gmap string file :=
  <[out_path := FBytes data]>
    (delete (out_path ++ ".part") (<[out_path ++ ".part" := FBytes data]> files)).

(** The test of the skip, as a boolean on the world. *)
Definition is_fetched (w : world) (p : string) : bool :=
  match fs w !! p with
  | Some f => (50000 <? file_size f)%Z
  | None => false
  end.

(** A server that answers 503 to the first two requests and then serves
    a page of three bytes. *)
Definition env_503_twice : env :=
  {| server := fun _ n =>
       Reply {| status_code := if (n <? 2)%nat then 503 else 200;
                json_body := None; text := ""; chunks := small_body |};
     random := fun _ => 1 # 2;
     has_img2pdf := true;
     img2pdf_accepts := fun _ => true;
     has_pillow := true;
     pillow_decodes := fun _ => true |}.

(** A network on which nothing answers. *)
Definition env_offline : env :=
  {| server := fun _ _ => NoReply;
     random := fun _ => 1 # 2;
     has_img2pdf := true;
     img2pdf_accepts := fun _ => true;
     has_pillow := true;
     pillow_decodes := fun _ => true |}.

(** Read a decimal number, leading zeros allowed. *)
Definition read_decimal (s : string) : option nat :=
  option_map Nat.of_uint (NilZero.uint_of_string s).



(* ===================================================================== *)
(** * Properties of the identifier resolver *)
(* ===================================================================== *)

(** Unfold the operations of the monad [M] and compute. *)
Ltac run_M :=
  repeat (unfold mbind, mret, M_bind, M_ret, raise, lift, attempt; simpl).

Section StringFacts.

Lemma append_nil_r (s : string) : s ++ "" = s.
Proof. induction s as [|c s IH]; simpl; [reflexivity | now rewrite IH]. Qed.

Lemma append_assoc (a b c : string) : (a ++ b) ++ c = a ++ (b ++ c).
Proof. induction a as [|x a IH]; simpl; [reflexivity | now rewrite IH]. Qed.

Lemma length_append (a b : string) :
  String.length (a ++ b) = (String.length a + String.length b)%nat.
Proof. induction a as [|x a IH]; simpl; [reflexivity | now rewrite IH]. Qed.

(** The literal matches exactly the texts that fold to the same
    letters. *)
Lemma match_literal_ci_iff (lit s s1 : string) :
  Str.match_literal true lit s = Some s1 <->
  exists l, s = l ++ s1 /\ fold_case l = fold_case lit.
Proof.
  revert s. induction lit as [|p lit IH]; intros s; simpl.
  - split.
    + intros [= ->]. exists "". auto.
    + intros (l & -> & Hl). destruct l; [reflexivity | discriminate].
  - destruct s as [|c s]; simpl.
    + split; [discriminate |].
      intros (l & Hs & Hl). destruct l; [discriminate | discriminate].
    + unfold Str.char_eq.
      destruct (Ascii.eqb_spec (Str.lower p) (Str.lower c)) as [Heq | Hne].
      * rewrite IH. split.
        -- intros (l & -> & Hl). exists (String c l). simpl.
           split; [reflexivity | congruence].
        -- intros (l & Hs & Hl). destruct l as [|c' l]; [discriminate |].
           simpl in *. injection Hs as -> ->. injection Hl as _ Hl.
           exists l. auto.
      * split; [discriminate |].
        intros (l & Hs & Hl). destruct l as [|c' l]; [discriminate |].
        simpl in *. injection Hs as -> ->. injection Hl as Hc _.
        congruence.
Qed.

Lemma match_literal_exact_iff (lit s s1 : string) :
  Str.match_literal false lit s = Some s1 <-> s = lit ++ s1.
Proof.
  revert s. induction lit as [|p lit IH]; intros s; simpl.
  - split; [intros [= ->]; reflexivity | intros ->; reflexivity].
  - destruct s as [|c s]; simpl; [split; discriminate |].
    destruct (Ascii.eqb_spec p c) as [-> | Hne].
    + rewrite IH. split; [intros ->; reflexivity | intros [= ->]; reflexivity].
    + split; [discriminate | intros [= ? ?]; congruence].
Qed.

(** [span] cuts [s] at its first character outside the class. *)
Lemma span_sound (cls : ascii -> bool) (s r t : string) :
  Str.span cls s = (r, t) ->
  s = r ++ t /\ all_chars cls r = true /\
  ends_or_starts (fun c => negb (cls c)) t.
Proof.
  revert r t. induction s as [|c s IH]; intros r t; simpl.
  - intros [= <- <-]. simpl. auto.
  - destruct (cls c) eqn:Hc.
    + destruct (Str.span cls s) as [r0 t0].
      destruct (IH r0 t0 eq_refl) as (-> & Hall & Hend).
      intros [= <- <-]. simpl. rewrite Hc, Hall. auto.
    + intros [= <- <-]. simpl. rewrite Hc. auto.
Qed.

Lemma span_complete (cls : ascii -> bool) (r t : string) :
  all_chars cls r = true ->
  ends_or_starts (fun c => negb (cls c)) t ->
  Str.span cls (r ++ t) = (r, t).
Proof.
  intros Hall Hend. induction r as [|x r IH]; simpl in *.
  - destruct t as [|c t]; simpl in *; [reflexivity |].
    apply negb_true_iff in Hend. now rewrite Hend.
  - apply andb_true_iff in Hall as [Hx Hall]. now rewrite Hx, IH.
Qed.

(** [search] finds nothing exactly when no suffix matches. *)
Lemma search_none_iff {A} (f : string -> option A) (s : string) :
  Str.search f s = None <-> forall pre post, s = pre ++ post -> f post = None.
Proof.
  induction s as [|c s IH]; simpl.
  - destruct (f "") eqn:Hf.
    + split; [discriminate |]. intros H. rewrite (H "" "" eq_refl) in Hf.
      discriminate.
    + split; [| reflexivity]. intros _ pre post Hs.
      destruct pre; [| discriminate]. simpl in Hs. now subst.
  - destruct (f (String c s)) eqn:Hf.
    + split; [discriminate |]. intros H.
      rewrite (H "" (String c s) eq_refl) in Hf. discriminate.
    + rewrite IH. split.
      * intros H pre post Hs. destruct pre as [|x pre]; simpl in Hs.
        -- now subst.
        -- injection Hs as _ Hs. eauto.
      * intros H pre post Hs. apply (H (String c pre) post). simpl. now subst.
Qed.

(** [search] returns the match at the first position that has one. *)
Lemma search_first {A} (f : string -> option A) (pre post : string) (m : A) :
  f post = Some m ->
  (forall pre' post', pre ++ post = pre' ++ post' ->
     (String.length pre' < String.length pre)%nat -> f post' = None) ->
  Str.search f (pre ++ post) = Some m.
Proof.
  induction pre as [|c pre IH]; intros Hm Hfirst; simpl.
  - destruct post; simpl; now rewrite Hm.
  - rewrite (Hfirst "" (String c (pre ++ post)) eq_refl); [| simpl; lia].
    apply IH; [assumption |].
    intros pre' post' Hs Hlt.
    apply (Hfirst (String c pre') post'); simpl; [now rewrite Hs | lia].
Qed.

End StringFacts.

(** The pattern matches at the start of [s] with group 1 equal to [tok]
    exactly when an occurrence starts there. *)
Lemma ARK_RE_at_iff (s tok : string) :
  ARK_RE_at s = Some tok <-> exists rest, ark_occurrence s "" tok rest.
Proof.
  unfold ARK_RE_at, ark_occurrence. split.
  - destruct (Str.match_literal true ark_prefix s) as [s1|] eqn:Hlit; [| discriminate].
    apply match_literal_ci_iff in Hlit as (lit & -> & Hfold).
    destruct (Str.span _ s1) as [r t] eqn:Hsp.
    apply span_sound in Hsp as (-> & Hall & Hend).
    destruct r as [|c r]; [discriminate |]. intros [= <-].
    exists t, lit. simpl. repeat split; try assumption; try discriminate.
    destruct t; simpl in *; [exact I |].
    now destruct (is_boundary a).
  - intros (rest & lit & Hs & Hfold & Hne & Hall & Hend). simpl in Hs.
    assert (Str.match_literal true ark_prefix s = Some (tok ++ rest)) as ->.
    { apply match_literal_ci_iff. exists lit. auto. }
    assert (Str.span (fun c => negb (is_boundary c)) (tok ++ rest) = (tok, rest)) as ->.
    { apply span_complete; [assumption |].
      destruct rest; simpl in *; [exact I | now rewrite Hend]. }
    destruct tok; [contradiction | reflexivity].
Qed.

Lemma ark_occurrence_shift (pre post pre0 tok rest : string) :
  ark_occurrence post pre0 tok rest ->
  ark_occurrence (pre ++ post) (pre ++ pre0) tok rest.
Proof.
  intros (lit & -> & H). exists lit. split; [| exact H].
  now rewrite append_assoc.
Qed.

(** An occurrence is a match of the pattern at the position where it
    starts. *)
Lemma ark_occurrence_at (url pre tok rest : string) :
  ark_occurrence url pre tok rest ->
  exists post, url = pre ++ post /\ ARK_RE_at post = Some tok.
Proof.
  intros (lit & -> & H). exists (lit ++ tok ++ rest). split; [reflexivity |].
  apply ARK_RE_at_iff. exists rest, lit. auto.
Qed.

Lemma ark_occurrence_exact_ci (url pre tok rest : string) :
  ark_occurrence_exact url pre tok rest -> ark_occurrence url pre tok rest.
Proof. intros (-> & H). exists ark_prefix. auto. Qed.

(** C7 (as amended).  When the locator contains ["/ark:/12148/"], in any
    letter case, followed by a non-empty token free of [/], [?] and [#]
    that ends at one of these characters or at the end of the string, the
    resolver returns the token of the leftmost such occurrence, trimmed of
    whitespace; when the locator contains no such occurrence in any letter
    case, the resolver raises [ValueError]. *)
Theorem ark_from_url_spec (url : string) :
  (forall pre tok rest,
      ark_occurrence url pre tok rest ->
      (forall pre' tok' rest',
          ark_occurrence url pre' tok' rest' ->
          (String.length pre <= String.length pre')%nat) ->
      ark_from_url url = Ok (Str.strip tok))
  /\
  ((forall pre tok rest, ~ ark_occurrence url pre tok rest) ->
   ark_from_url url = Raise (ValueError ark_error)).
Proof.
  unfold ark_from_url. split.
  - intros pre tok rest Hocc Hleft.
    destruct (ark_occurrence_at _ _ _ _ Hocc) as (post & -> & Hat).
    rewrite (search_first ARK_RE_at pre post tok Hat); [reflexivity |].
    intros pre' post' Hs Hlt.
    destruct (ARK_RE_at post') as [tok'|] eqn:Hat'; [| reflexivity].
    apply ARK_RE_at_iff in Hat' as (rest' & Hocc').
    apply (ark_occurrence_shift pre') in Hocc'.
    rewrite append_nil_r, <- Hs in Hocc'.
    specialize (Hleft _ _ _ Hocc'). lia.
  - intros Hnone.
    assert (Str.search ARK_RE_at url = None) as ->; [| reflexivity].
    apply search_none_iff. intros pre post ->.
    destruct (ARK_RE_at post) as [tok|] eqn:Hat; [| reflexivity].
    apply ARK_RE_at_iff in Hat as (rest & Hocc).
    apply (ark_occurrence_shift pre) in Hocc. rewrite append_nil_r in Hocc.
    now apply Hnone in Hocc.
Qed.

(** A prefix is determined by its length. *)
Lemma append_eq_length (a b c d : string) :
  a ++ b = c ++ d -> String.length a = String.length c -> b = d.
Proof.
  revert c. induction a as [|x a IH]; intros [|y c]; simpl; try discriminate.
  - auto.
  - intros [= _ H] [= Hl]. eauto.
Qed.

Lemma string_drop_append (a b : string) : string_drop (String.length a) (a ++ b) = b.
Proof. induction a as [|x a IH]; simpl; [now destruct b | exact IH]. Qed.

(** The docstring's example, by the theorem: the occurrence after
    ["https://gallica.bnf.fr"] is the leftmost one. *)
Lemma ark_from_url_spec_witness :
  ark_from_url "https://gallica.bnf.fr/ark:/12148/bd6t54208770t?rk=107296;4"
  = Ok "bd6t54208770t".
Proof.
  set (url := "https://gallica.bnf.fr/ark:/12148/bd6t54208770t?rk=107296;4").
  apply (proj1 (ark_from_url_spec url) "https://gallica.bnf.fr" "bd6t54208770t" "?rk=107296;4").
  - exists ark_prefix. repeat split; try reflexivity. discriminate.
  - intros pre' tok' rest' Hocc.
    destruct (ark_occurrence_at _ _ _ _ Hocc) as (post & Hurl & Hat).
    destruct (le_lt_dec 22 (String.length pre')) as [Hle | Hlt]; [exact Hle |].
    exfalso.
    assert (post = string_drop (String.length pre') url) as ->.
    { rewrite Hurl. symmetry. apply string_drop_append. }
    assert (forallb (fun k => bool_decide (ARK_RE_at (string_drop k url) = None))
              (seq 0 22) = true) as Hall by (vm_compute; reflexivity).
    rewrite forallb_forall in Hall.
    specialize (Hall (String.length pre')).
    rewrite bool_decide_eq_true in Hall.
    rewrite Hall in Hat; [discriminate |].
    apply in_seq. lia.
Defined.

(** C7, as stated, fails: a locator that spells the prefix in upper case
    does not contain ["/ark:/12148/"], and the resolver accepts it. *)
Lemma ark_from_url_uppercase_accepted :
  let url := "https://gallica.bnf.fr/ARK:/12148/bd6t54208770t" in
  (forall pre tok rest, ~ ark_occurrence_exact url pre tok rest) /\
  ark_from_url url = Ok "bd6t54208770t".
Proof.
  intros url. split; [| reflexivity].
  intros pre tok rest (Hurl & _).
  assert (Str.search (Str.match_literal false ark_prefix) url = None) as Hs
    by (vm_compute; reflexivity).
  rewrite search_none_iff in Hs.
  specialize (Hs pre (ark_prefix ++ tok ++ rest) Hurl).
  assert (Str.match_literal false ark_prefix (ark_prefix ++ tok ++ rest)
          = Some (tok ++ rest)) as Hm by (now apply match_literal_exact_iff).
  congruence.
Qed.

Example ark_from_url_docstring :
  ark_from_url "https://gallica.bnf.fr/ark:/12148/bd6t54208770t?rk=107296;4"
  = Ok "bd6t54208770t".
Proof. reflexivity. Qed.

Example ark_from_url_trims :
  ark_from_url "see /ark:/12148/ bd6t54208770t /f1.item" = Ok "bd6t54208770t".
Proof. reflexivity. Qed.

Example ark_from_url_empty_token :
  ark_from_url "https://gallica.bnf.fr/ark:/12148/" = Raise (ValueError ark_error).
Proof. reflexivity. Qed.

(* ===================================================================== *)
(** * Properties of the canvas enumerator *)
(* ===================================================================== *)

(** C5.  The code at the failing input: on a v3 canvas whose first service
    entry has neither an ["id"] nor an ["@id"], the function returns
    [None] instead of raising the "no image service" error. *)
Theorem canvas_image_service_id_returns_none :
  canvas_image_service_id canvas_v3_without_id = Ok JNull.
Proof. reflexivity. Qed.

Lemma result_bind_ok {A B} (m : result A) (f : A -> result B) (b : B) :
  mbind f m = Ok b -> exists a, m = Ok a /\ f a = Ok b.
Proof. destruct m as [a|e]; simpl; [eauto | discriminate]. Qed.

(** What the v2 branch returns is never [None]: it is guarded by [if sid]. *)
Lemma service_id_v2_truthy (canvas sid : json) :
  service_id_v2 canvas = Ok (Some sid) -> Py.truthy sid = true.
Proof.
  unfold service_id_v2. intros H.
  apply result_bind_ok in H as (imgs & _ & H).
  destruct (Py.truthy imgs); [| discriminate].
  apply result_bind_ok in H as (img0 & _ & H).
  apply result_bind_ok in H as (res & _ & H).
  apply result_bind_ok in H as (svc & _ & H).
  apply result_bind_ok in H as (at_id & _ & H).
  apply result_bind_ok in H as (sid' & _ & H).
  destruct (Py.truthy sid') eqn:Ht; [| discriminate].
  now injection H as <-.
Qed.

(** The v2 branch is not protected by a [try]: a resource whose services
    come as a list makes the function raise [AttributeError]. *)
Example canvas_image_service_id_v2_mismatch :
  canvas_image_service_id canvas_v2_service_list = Raise AttributeError.
Proof. reflexivity. Qed.

(** A canvas that has neither images nor items is rejected with the
    "no image service" error. *)
Lemma canvas_image_service_id_empty (kvs : list (string * json)) :
  Py.assoc "images" kvs = None ->
  Py.assoc "items" kvs = None ->
  canvas_image_service_id (JObj kvs) = Raise (RuntimeError no_service_error).
Proof.
  intros H1 H2. unfold canvas_image_service_id, service_id_v2. simpl.
  rewrite H1. simpl. rewrite H2. reflexivity.
Qed.

Example iter_canvases_v2 :
  iter_canvases (JObj [("sequences", JArr [JObj [("canvases", JArr two_canvases)]])])
  = Ok two_canvases.
Proof. reflexivity. Qed.

Example iter_canvases_v3 :
  iter_canvases (JObj [("items", JArr [canvas_v3_without_id])])
  = Ok [canvas_v3_without_id].
Proof. reflexivity. Qed.

Example iter_canvases_neither : iter_canvases (JObj [("label", JStr "x")]) = Ok [].
Proof. reflexivity. Qed.

Example iiif_jpg_url_strips_slash :
  iiif_jpg_url (JStr "https://gallica.bnf.fr/iiif/ark:/12148/bd6t54208770t/f3/") 2000
  = Ok "https://gallica.bnf.fr/iiif/ark:/12148/bd6t54208770t/f3/full/2000,/0/default.jpg".
Proof. reflexivity. Qed.

Example extract_manifest_absolute :
  extract_manifest_from_html
    "<a href='https://gallica.bnf.fr/iiif/ark:/12148/abc/manifest.json'>x</a>"
  = Some "https://gallica.bnf.fr/iiif/ark:/12148/abc/manifest.json".
Proof. reflexivity. Qed.

Example extract_manifest_relative :
  extract_manifest_from_html "<a href='/iiif/ark:/12148/abc/manifest.json'>x</a>"
  = Some "https://gallica.bnf.fr/iiif/ark:/12148/abc/manifest.json".
Proof. reflexivity. Qed.

(* ===================================================================== *)
(** * Properties of the workspace cleaner *)
(* ===================================================================== *)

(** C6.  With [p] the resolved workspace path: unless [p] is none of the
    resolved root, home and current directories and its name is
    [gallica_<ark>], [safe_rmtree] returns [False] and leaves the tree as
    it is; it changes the tree or returns [True] only under that
    condition; and a workspace that resolves to the home directory is
    refused whatever its name. *)
Theorem safe_rmtree_guard (o : Cleaner.os) (workdir ark : string) (st : Cleaner.state) :
  let p := Cleaner.resolve o workdir in
  let allowed := (p ∉ Cleaner.forbidden o) /\ Cleaner.name p = Cleaner.expected_name ark in
  let out := Cleaner.safe_rmtree o workdir ark st in
  (~ allowed -> out.1 = Ok false /\ Cleaner.tree out.2 = Cleaner.tree st)
  /\ (out.1 = Ok true \/ Cleaner.tree out.2 <> Cleaner.tree st -> allowed)
  /\ (p = Cleaner.resolve o (Cleaner.home o) ->
      out.1 = Ok false /\ Cleaner.tree out.2 = Cleaner.tree st).
Proof.
  intros p allowed out.
  assert (~ allowed -> out.1 = Ok false /\ Cleaner.tree out.2 = Cleaner.tree st) as Hrefuse.
  { intros Hna. subst out. unfold Cleaner.safe_rmtree. fold p.
    case_bool_decide as Hf; [simpl; auto |].
    destruct (String.eqb_spec (Cleaner.name p) (Cleaner.expected_name ark)) as [Hn | Hn];
      simpl; [| auto].
    exfalso. apply Hna. split; assumption. }
  split; [exact Hrefuse |]. split.
  - intros Hdone.
    destruct (decide (p ∈ Cleaner.forbidden o)) as [Hf | Hf].
    + destruct Hrefuse as [H1 H2]; [intros [Hnf _]; contradiction |].
      destruct Hdone as [Ht | Hc]; [congruence | contradiction].
    + destruct (decide (Cleaner.name p = Cleaner.expected_name ark)) as [Hn | Hn].
      * split; assumption.
      * destruct Hrefuse as [H1 H2]; [intros [_ Hn']; contradiction |].
        destruct Hdone as [Ht | Hc]; [congruence | contradiction].
  - intros Hhome. apply Hrefuse. intros [Hnf _]. apply Hnf.
    unfold Cleaner.forbidden. rewrite Hhome, !elem_of_cons. auto.
Qed.

(** The home directory of [sample_os] is named [gallica_x]: asked to clean
    it for the identifier [x], the cleaner refuses. *)
Lemma safe_rmtree_guard_witness :
  (Cleaner.safe_rmtree sample_os "/home/gallica_x" "x" sample_tree).1 = Ok false
  /\ Cleaner.tree (Cleaner.safe_rmtree sample_os "/home/gallica_x" "x" sample_tree).2
     = Cleaner.tree sample_tree.
Proof.
  apply (proj2 (proj2 (safe_rmtree_guard sample_os "/home/gallica_x" "x" sample_tree))).
  reflexivity.
Defined.

(** When the guard lets the path through and the directory exists, it is
    removed with everything below it, and nothing else is. *)
Lemma safe_rmtree_deletes (o : Cleaner.os) (workdir ark : string) (st : Cleaner.state) :
  let p := Cleaner.resolve o workdir in
  p ∉ Cleaner.forbidden o ->
  Cleaner.name p = Cleaner.expected_name ark ->
  p ∈ Cleaner.tree st ->
  (Cleaner.safe_rmtree o workdir ark st).1 = Ok true
  /\ forall q, q ∈ Cleaner.tree (Cleaner.safe_rmtree o workdir ark st).2
               <-> q ∈ Cleaner.tree st /\ ~ p `prefix_of` q.
Proof.
  intros p Hf Hn Hin. unfold Cleaner.safe_rmtree. fold p.
  rewrite bool_decide_eq_false_2 by assumption.
  rewrite Hn, String.eqb_refl. simpl.
  unfold Cleaner.rmtree. rewrite bool_decide_eq_true_2 by assumption. simpl.
  split; [reflexivity |]. intros q. rewrite elem_of_filter.
  unfold Cleaner.is_under. rewrite bool_decide_eq_false. tauto.
Qed.

Example safe_rmtree_default_workspace :
  (Cleaner.safe_rmtree sample_os "gallica_x" "x" sample_tree).1 = Ok true.
Proof.
  apply safe_rmtree_deletes; [| reflexivity |];
    refine (bool_decide_unpack _ _); vm_compute; exact I.
Qed.

(* ===================================================================== *)
(** * Properties of the download engine *)
(* ===================================================================== *)

Section Download.

Variable E : env.

Lemma after_nil (w : world) : after w [] 0 0 = w.
Proof. destruct w. unfold after. simpl. now rewrite app_nil_r. Qed.

Lemma after_after (w : world) (e1 e2 : list event) (n1 n2 d1 d2 : nat) :
  after (after w e1 n1 d1) e2 n2 d2 = after w (e1 ++ e2) (n2 + n1) (d2 + d1).
Proof.
  unfold after. simpl. f_equal; [now rewrite app_assoc | lia | lia].
Qed.

Lemma already_fetched_false (w : world) (out_path : string) :
  to_download w out_path -> already_fetched out_path w = (Ok false, w).
Proof.
  unfold to_download, already_fetched. intros H.
  destruct (fs w !! out_path) as [f|]; [| reflexivity].
  now rewrite (proj2 (Z.ltb_ge _ _) H).
Qed.

Lemma already_fetched_true (w : world) (out_path : string) :
  fetched w out_path -> already_fetched out_path w = (Ok true, w).
Proof.
  unfold fetched, already_fetched. intros (f & -> & H).
  now rewrite (proj2 (Z.ltb_lt _ _) H).
Qed.

Lemma session_get_reply (url : string) (r : response) (w : world) :
  server E url (requests w) = Reply r ->
  session_get E url w = (Ok r, after w [EGet url] 1 0).
Proof. unfold session_get, after. now intros ->. Qed.

Lemma retryable_not_200 (s : Z) : is_retryable s = true -> (s =? 200)%Z = false.
Proof. unfold is_retryable. lia. Qed.

(** An attempt answered by 403, 429 or 503: one request, one sleep, and
    the loop goes on. *)
Lemma download_attempt_retry (url out_path : string) (pause : Q) (k : nat)
    (r : response) (w : world) :
  server E url (requests w) = Reply r ->
  is_retryable (status_code r) = true ->
  download_attempt E url out_path pause k w
  = (Ok None, after w [EGet url; ESleep (backoff_wait k (jitter E (draws w)))] 1 1).
Proof.
  intros Hr Hs. unfold download_attempt, mbind, M_bind.
  rewrite (session_get_reply _ _ _ Hr), (retryable_not_200 _ Hs), Hs.
  unfold random_uniform, sleep, log, after. simpl.
  now rewrite <- app_assoc.
Qed.

(** An attempt answered by a status from 400 to 599 that is not
    retryable: one request, then the [HTTPError]. *)
Lemma download_attempt_fatal (url out_path : string) (pause : Q) (k : nat)
    (r : response) (w : world) :
  server E url (requests w) = Reply r ->
  (400 <= status_code r < 600)%Z ->
  is_retryable (status_code r) = false ->
  download_attempt E url out_path pause k w
  = (Raise (HTTPError (status_code r)), after w [EGet url] 1 0).
Proof.
  intros Hr Hrange Hs. unfold download_attempt, mbind, M_bind.
  rewrite (session_get_reply _ _ _ Hr), Hs.
  replace (status_code r =? 200)%Z with false by lia.
  unfold raise_for_status.
  replace ((400 <=? status_code r) && (status_code r <? 600))%Z with true by lia.
  reflexivity.
Qed.

(** An attempt answered by a status that is neither 200, nor retryable,
    nor from 400 to 599: one request, no sleep, and the loop goes on. *)
Lemma download_attempt_ignored (url out_path : string) (pause : Q) (k : nat)
    (r : response) (w : world) :
  server E url (requests w) = Reply r ->
  status_code r <> 200%Z ->
  is_retryable (status_code r) = false ->
  ~ (400 <= status_code r < 600)%Z ->
  download_attempt E url out_path pause k w = (Ok None, after w [EGet url] 1 0).
Proof.
  intros Hr H200 Hs Hrange. unfold download_attempt, mbind, M_bind.
  rewrite (session_get_reply _ _ _ Hr), Hs.
  replace (status_code r =? 200)%Z with false by lia.
  unfold raise_for_status.
  replace ((400 <=? status_code r) && (status_code r <? 600))%Z with false by lia.
  reflexivity.
Qed.

Lemma for_each_retry (url out_path : string) (pause : Q) (ks : list nat) (w : world) :
  always_answers E is_retryable ->
  for_each ks (download_attempt E url out_path pause) w
  = (Ok None, after w (retry_events E url ks (draws w)) (length ks) (length ks)).
Proof.
  intros Hall. revert w. induction ks as [|k ks IH]; intros w.
  - simpl. now rewrite after_nil.
  - destruct (Hall url (requests w)) as (r & Hr & Hs).
    simpl. unfold mbind, M_bind.
    rewrite (download_attempt_retry _ _ _ _ _ _ Hr Hs).
    fold (@mbind M _). rewrite IH, after_after. simpl.
    do 2 f_equal; lia.
Qed.

Lemma for_each_ignored (url out_path : string) (pause : Q) (ks : list nat) (w : world) :
  always_answers E (fun s => (200 <? s) && (s <? 400))%Z ->
  for_each ks (download_attempt E url out_path pause) w
  = (Ok None, after w (repeat (EGet url) (length ks)) (length ks) 0).
Proof.
  intros Hall. revert w. induction ks as [|k ks IH]; intros w.
  - simpl. now rewrite after_nil.
  - destruct (Hall url (requests w)) as (r & Hr & Hs).
    simpl. unfold mbind, M_bind.
    rewrite (download_attempt_ignored _ _ _ _ _ _ Hr);
      [| lia | unfold is_retryable; lia | lia].
    rewrite IH, after_after. simpl. do 2 f_equal; lia.
Qed.

Lemma download_with_backoff_skip (url out_path : string) (pause : Q) (w : world) :
  fetched w out_path -> download_with_backoff E url out_path pause w = (Ok tt, w).
Proof.
  intros H. unfold download_with_backoff, mbind, M_bind.
  now rewrite (already_fetched_true _ _ H).
Qed.

Lemma run_jobs_skip (jobs : list (string * string)) (order : list nat) (pause : Q)
    (w : world) :
  (forall job, job ∈ jobs -> fetched w job.2) ->
  run_jobs E pause jobs order w = (Ok tt, w).
Proof.
  intros Hall. induction order as [|i order IH]; [reflexivity |].
  simpl. unfold mbind, M_bind.
  destruct (jobs !! i) as [job|] eqn:Hi.
  - unfold run_job, attempt, mbind, M_bind.
    rewrite download_with_backoff_skip; [exact IH |].
    apply Hall. eapply list_elem_of_lookup_2. exact Hi.
  - exact IH.
Qed.

Lemma jitter_range :
  (forall n, 0 <= random E n /\ random E n < 1)%Q ->
  forall n, (0 <= jitter E n /\ jitter E n < 35 # 100)%Q.
Proof. intros H n. unfold jitter. destruct (H n). split; lra. Qed.

End Download.

(** A download answered by 200 leaves the body at the destination after
    one request; the page counts as fetched from then on when the body
    has more than 50,000 bytes. *)
Lemma download_with_backoff_success (E : env) (url out_path : string) (pause : Q)
    (r : response) (w : world) :
  to_download w out_path ->
  server E url (requests w) = Reply r ->
  status_code r = 200%Z ->
  exists w',
    download_with_backoff E url out_path pause w = (Ok tt, w')
    /\ fs w' !! out_path = Some (FBytes (written (chunks r)))
    /\ count_gets (drop (length (trace w)) (trace w')) = 1%nat.
Proof.
  intros Hneed Hr H200.
  unfold download_with_backoff. unfold mbind at 1. unfold M_bind at 1.
  rewrite (already_fetched_false _ _ Hneed).
  unfold MAX_TRIES. cbn [seq for_each].
  unfold mbind at 1 2. unfold M_bind at 1 2. unfold download_attempt.
  unfold mbind at 1. unfold M_bind at 1.
  rewrite (session_get_reply E _ _ _ Hr), H200. cbn [Z.eqb Pos.eqb].
  unfold write_file, os_replace. run_M. rewrite lookup_insert_eq.
  destruct (Qle_bool pause 0); run_M; eexists; (split; [reflexivity |]);
    simpl; rewrite lookup_insert_eq; (split; [reflexivity |]);
    rewrite <- ?app_assoc, drop_app_length; reflexivity.
Qed.

Lemma fetched_iff (w : world) (out_path : string) :
  fetched w out_path <-> (already_fetched out_path w).1 = Ok true.
Proof.
  unfold fetched, already_fetched. simpl. split.
  - intros (f & -> & H). now rewrite (proj2 (Z.ltb_lt _ _) H).
  - destruct (fs w !! out_path) as [f|]; [| discriminate].
    intros [= H]. exists f. split; [reflexivity | lia].
Qed.

Lemma to_download_iff (w : world) (out_path : string) :
  to_download w out_path <-> (already_fetched out_path w).1 = Ok false.
Proof.
  unfold to_download, already_fetched. simpl.
  destruct (fs w !! out_path) as [f|]; [| tauto].
  split; [intros H; f_equal; lia | intros [= H]; lia].
Qed.

(** C1.  When every request is answered by 403, 429 or 503 and the page is
    still to download, [download_with_backoff] issues exactly 8 requests,
    each followed by a sleep of min(0.6 * 2^(attempt-1) + jitter, 12)
    seconds, and then raises the "failed after 8 attempts" error; every
    sleep is at most 12 seconds, and the jitter lies in [0, 0.35) when
    [random.random()] lies in [0, 1). *)
Theorem download_with_backoff_retry_bound (E : env) (url out_path : string)
    (pause : Q) (w : world) :
  always_answers E is_retryable ->
  to_download w out_path ->
  let evs :=
    concat (map (fun i => [EGet url;
                           ESleep (backoff_wait (1 + i) (jitter E (i + draws w)))])
              (seq 0 8)) in
  download_with_backoff E url out_path pause w
  = (Raise (RuntimeError (download_error url)), after w evs 8 8)
  /\ count_gets evs = 8%nat
  /\ Forall (fun d => d <= 12)%Q (sleeps evs)
  /\ ((forall n, 0 <= random E n /\ random E n < 1)%Q ->
      forall n, (0 <= jitter E n /\ jitter E n < 35 # 100)%Q).
Proof.
  intros Hall Hneed evs. split; [| split; [reflexivity | split]].
  - unfold download_with_backoff, mbind, M_bind.
    rewrite (already_fetched_false _ _ Hneed).
    fold (@mbind M _).
    unfold mbind, M_bind. rewrite (for_each_retry E _ _ _ _ _ Hall). reflexivity.
  - simpl. repeat constructor; apply Q.le_min_r.
  - apply jitter_range.
Qed.

Lemma download_with_backoff_retry_bound_witness :
  (download_with_backoff (env_always 503 []) sample_url sample_out 0 empty_world).1
  = Raise (RuntimeError (download_error sample_url)).
Proof.
  rewrite (proj1 (download_with_backoff_retry_bound
                    (env_always 503 []) sample_url sample_out 0 empty_world
                    (fun _ _ => ex_intro _ _ (conj eq_refl eq_refl)) I)).
  reflexivity.
Defined.

(** C9 (as amended).  An attempt answered by a status from 400 to 599
    other than 403, 429 and 503 ends the loop at once: the [HTTPError] is
    raised after that one request, without a sleep, and the remaining
    attempts are not made. *)
Theorem download_fatal_status (E : env) (url out_path : string) (pause : Q)
    (k : nat) (rest : list nat) (r : response) (w : world) :
  server E url (requests w) = Reply r ->
  (400 <= status_code r < 600)%Z ->
  is_retryable (status_code r) = false ->
  for_each (k :: rest) (download_attempt E url out_path pause) w
  = (Raise (HTTPError (status_code r)), after w [EGet url] 1 0)
  /\ (to_download w out_path ->
      download_with_backoff E url out_path pause w
      = (Raise (HTTPError (status_code r)), after w [EGet url] 1 0)).
Proof.
  intros Hr Hrange Hs.
  assert (forall k' rest',
             for_each (k' :: rest') (download_attempt E url out_path pause) w
             = (Raise (HTTPError (status_code r)), after w [EGet url] 1 0)) as Hloop.
  { intros. simpl. unfold mbind, M_bind.
    now rewrite (download_attempt_fatal E _ _ _ _ _ _ Hr Hrange Hs). }
  split; [apply Hloop |].
  intros Hneed. unfold download_with_backoff, mbind, M_bind.
  rewrite (already_fetched_false _ _ Hneed).
  fold (@mbind M _). unfold MAX_TRIES. simpl seq.
  unfold mbind, M_bind. now rewrite Hloop.
Qed.

Lemma download_fatal_status_witness :
  download_with_backoff (env_always 404 []) sample_url sample_out 0 empty_world
  = (Raise (HTTPError 404), after empty_world [EGet sample_url] 1 0).
Proof.
  apply (proj2 (download_fatal_status (env_always 404 []) sample_url sample_out 0
                  1 [] {| status_code := 404; json_body := None; text := "";
                          chunks := [] |} empty_world eq_refl
                  (conj (Zle_bool_imp_le 400 404 eq_refl) eq_refl) eq_refl)).
  exact I.
Defined.

(** C9, as stated, fails: 304 is a non-2xx status other than 403, 429 and
    503, and a job that receives it is requested 8 times and ends with the
    "failed after 8 attempts" error, not with an [HTTPError]. *)
Lemma download_304_is_retried :
  download_with_backoff (env_always 304 []) sample_url sample_out 0 empty_world
  = (Raise (RuntimeError (download_error sample_url)),
     after empty_world (repeat (EGet sample_url) 8) 8 0).
Proof. reflexivity. Qed.

(** C10.  When every request is answered by a status from 201 to 399 and
    the page is still to download, [download_with_backoff] issues 8
    requests with no sleep between them and then raises the same "failed
    after 8 attempts" error as for exhausted retries. *)
Theorem download_ignored_status (E : env) (url out_path : string) (pause : Q)
    (w : world) :
  always_answers E (fun s => (200 <? s) && (s <? 400))%Z ->
  to_download w out_path ->
  download_with_backoff E url out_path pause w
  = (Raise (RuntimeError (download_error url)), after w (repeat (EGet url) 8) 8 0)
  /\ sleeps (repeat (EGet url) 8) = [].
Proof.
  intros Hall Hneed. split; [| reflexivity].
  unfold download_with_backoff, mbind, M_bind.
  rewrite (already_fetched_false _ _ Hneed).
  fold (@mbind M _).
  unfold mbind, M_bind. rewrite (for_each_ignored E _ _ _ _ _ Hall). reflexivity.
Qed.

Lemma download_ignored_status_witness :
  download_with_backoff (env_always 204 []) sample_url sample_out 0 empty_world
  = (Raise (RuntimeError (download_error sample_url)),
     after empty_world (repeat (EGet sample_url) 8) 8 0).
Proof.
  apply (download_ignored_status (env_always 204 []) sample_url sample_out 0 empty_world
           (fun _ _ => ex_intro _ _ (conj eq_refl eq_refl)) I).
Defined.

(** C3 (as amended).  A job whose destination file exists and holds more
    than 50,000 bytes returns at once and leaves the world as it is, so no
    request is issued; hence a run of the download engine over jobs whose
    destination files all hold more than 50,000 bytes issues no request. *)
Theorem download_skip_idempotent (E : env) :
  (forall url out_path pause w,
      fetched w out_path ->
      download_with_backoff E url out_path pause w = (Ok tt, w))
  /\
  (forall jobs order pause w,
      (forall job, job ∈ jobs -> fetched w job.2) ->
      parallel_download E jobs order pause w = (Ok tt, w)).
Proof.
  split.
  - apply download_with_backoff_skip.
  - intros jobs order pause w Hall. unfold parallel_download.
    destruct jobs; [reflexivity |]. now apply run_jobs_skip.
Qed.

(** A second run after a first run that downloaded 50,001 bytes. *)
Lemma download_skip_idempotent_witness :
  parallel_download (env_always 200 large_body) sample_jobs [0%nat] 0
    (after_first_run large_body)
  = (Ok tt, after_first_run large_body).
Proof.
  apply (proj2 (download_skip_idempotent (env_always 200 large_body))).
  intros job Hjob. apply list_elem_of_singleton in Hjob. subst job.
  apply fetched_iff. vm_compute. reflexivity.
Defined.

(** C3, as stated, fails: after a first run that downloaded a page of
    three bytes, the second run over the same job requests it again. *)
Lemma second_run_requests_small_page :
  let E := env_always 200 small_body in
  let w1 := after_first_run small_body in
  (parallel_download E sample_jobs [0%nat] 0 empty_world).1 = Ok tt
  /\ fs w1 !! sample_out = Some (FBytes [Byte.xff; Byte.xd8; Byte.xff])
  /\ requests w1 = 1%nat
  /\ requests (parallel_download E sample_jobs [0%nat] 0 w1).2 = 2%nat.
Proof. vm_compute. repeat split; reflexivity. Qed.

(* ===================================================================== *)
(** * Properties of the manifest resolver *)
(* ===================================================================== *)

Section Manifest.

Variable E : env.

(** Fetching and decoding a JSON document is one request. *)
Lemma fetch_json (url : string) (w : world) :
  (r ← fetch E url true; response_json r) w
  = (fetch_json_outcome (server E url (requests w)), after w [EGet url] 1 0).
Proof.
  unfold fetch, session_get, fetch_json_outcome, after, raise_for_status,
    response_json.
  run_M.
  destruct (server E url (requests w)) as [r|]; [| reflexivity].
  destruct ((400 <=? status_code r) && (status_code r <? 600))%Z; [reflexivity |].
  run_M. destruct (json_body r) eqn:Hj; run_M; rewrite ?Hj; reflexivity.
Qed.

Lemma fetch_json_some (url : string) (w : world) :
  (r ← fetch E url true; j ← response_json r; mret (Some j)) w
  = (match fetch_json_outcome (server E url (requests w)) with
     | Ok j => Ok (Some j)
     | Raise e => Raise e
     end, after w [EGet url] 1 0).
Proof.
  unfold fetch, session_get, fetch_json_outcome, after, raise_for_status,
    response_json.
  run_M.
  destruct (server E url (requests w)) as [r|]; [| reflexivity].
  destruct ((400 <=? status_code r) && (status_code r <? 600))%Z; [reflexivity |].
  run_M. destruct (json_body r) eqn:Hj; run_M; rewrite ?Hj; reflexivity.
Qed.

(** The warm-up issues the requests of [warmup_gets] and raises only
    when neither viewer page answered. *)
Lemma warmup_spec (ark : string) (w : world) :
  exists r,
    warmup E ark w
    = (r, after w (warmup_gets E ark (requests w)).1
            (length (warmup_gets E ark (requests w)).1) 0)
    /\ (r = Ok tt <-> (warmup_gets E ark (requests w)).2 = true).
Proof.
  unfold warmup, warmup_gets, viewer_urls. simpl.
  unfold mbind, M_bind, attempt, session_get. simpl.
  destruct (server E _ (requests w)); simpl.
  - eexists. split; [reflexivity | tauto].
  - destruct (server E _ (S (requests w))); simpl.
    + eexists. split; [unfold after; simpl; now rewrite <- app_assoc | tauto].
    + eexists. split; [unfold after; simpl; now rewrite <- app_assoc |].
      split; discriminate.
Qed.

(** A round, exactly: the sleep, the warm-up and, when the warm-up did
    not raise, the direct fetch. *)
Lemma warmup_round_spec (ark : string) (k : nat) (w : world) :
  let warm := (warmup_gets E ark (requests w)).1 in
  let n := length warm in
  warmup_round E ark k w
  = if (warmup_gets E ark (requests w)).2
    then (Ok (match fetch_json_outcome
                      (server E (manifest_url ark) (n + requests w)) with
              | Ok j => Some j
              | Raise _ => None
              end),
          after w (round_sleep k :: warm ++ [EGet (manifest_url ark)]) (S n) 0)
    else (Ok None, after w (round_sleep k :: warm) n 0).
Proof.
  intros warm n. unfold warmup_round, try_except_pass.
  unfold mbind at 1 2. unfold M_bind at 1 2. unfold sleep at 1. unfold attempt.
  unfold mbind at 1. unfold M_bind at 1.
  destruct (warmup_spec ark (log (round_sleep k) w)) as (r & Hw & Hr).
  change (requests (log (round_sleep k) w)) with (requests w) in Hw, Hr.
  unfold round_sleep, round_wait in Hw |- *.
  rewrite Hw. fold warm in Hr |- *. fold n.
  destruct r as [[]|e].
  - rewrite (proj1 Hr eq_refl).
    rewrite fetch_json_some.
    change (requests (after (log (round_sleep k) w) warm n 0))
      with (n + requests w)%nat.
    destruct (fetch_json_outcome _); run_M; unfold after, log; simpl;
      rewrite <- !app_assoc; simpl; do 2 f_equal; lia.
  - destruct ((warmup_gets E ark (requests w)).2) eqn:Hok.
    + pose proof (proj2 Hr eq_refl). discriminate.
    + run_M. unfold after, log. simpl. rewrite <- !app_assoc. reflexivity.
Qed.

(** Scraping one viewer page starts with the request for that page and
    never raises. *)
Lemma scrape_spec (u : string) (w : world) :
  exists res evs n, scrape E u w = (Ok res, after w (EGet u :: evs) n 0).
Proof.
  unfold scrape, try_except_pass.
  unfold mbind at 1. unfold M_bind at 1. unfold attempt.
  unfold mbind at 1. unfold M_bind at 1.
  unfold session_get.
  destruct (server E u (requests w)) as [rr|].
  - unfold mbind at 1. unfold M_bind at 1. unfold raise_for_status.
    destruct ((400 <=? status_code rr) && (status_code rr <? 600))%Z.
    + exists None, [], 1%nat. reflexivity.
    + unfold mret at 1. unfold M_ret at 1.
      destruct (extract_manifest_from_html (text rr)) as [alt|].
      * rewrite fetch_json_some.
        destruct (fetch_json_outcome _) as [j|e].
        -- exists (Some j), [EGet alt], 2%nat. unfold after. simpl.
           now rewrite <- app_assoc.
        -- exists None, [EGet alt], 2%nat. unfold after. simpl.
           now rewrite <- app_assoc.
      * exists None, [], 1%nat. reflexivity.
  - exists None, [], 1%nat. reflexivity.
Qed.

Lemma html_fallback_starts (ark : string) (w : world) :
  exists res w' tail,
    html_fallback E ark w = (res, w')
    /\ trace w' = (trace w ++ EGet (viewer_page ark) :: tail)%list.
Proof.
  unfold html_fallback.
  change (viewer_urls ark)
    with [viewer_page ark; ("https://gallica.bnf.fr/ark:/12148/" ++ ark)%string].
  cbn [for_each].
  destruct (scrape_spec (viewer_page ark) w) as (res1 & evs1 & n1 & H1).
  unfold mbind at 1 2. unfold M_bind at 1 2. rewrite H1.
  destruct res1 as [j|].
  - run_M. eexists _, _, evs1. split; reflexivity.
  - destruct (scrape_spec ("https://gallica.bnf.fr/ark:/12148/" ++ ark)
                (after w (EGet (viewer_page ark) :: evs1) n1 0))
      as (res2 & evs2 & n2 & H2).
    unfold mbind at 1. unfold M_bind at 1. rewrite H2.
    destruct res2 as [j|]; run_M; eexists _, _, _;
      (split; [reflexivity | unfold after; simpl; rewrite <- app_assoc; reflexivity]).
Qed.

End Manifest.

(** C2 (as amended).  [get_manifest] first requests the manifest URL.  A
    reply with an error status other than 403 is raised at once as an
    [HTTPError], after that single request; a 403 leads to the warm-up
    rounds.  Round [k] sleeps 0.7 * k seconds, then warms up, and then
    retries the direct fetch unless the warm-up raised (neither viewer page
    answered), in which case the round ends without retrying.  The rounds
    are numbered 1, 2, 3, the first successful one returns its manifest,
    and after a third failed round the HTML fallback starts, with a request
    for the viewer page. *)
Theorem get_manifest_strategies (E : env) (ark : string) (w : world) :
  let murl := manifest_url ark in
  let w1 := after w [EGet murl] 1 0 in
  (forall r,
      server E murl (requests w) = Reply r ->
      ((400 <= status_code r < 600)%Z -> status_code r <> 403%Z ->
       get_manifest E ark w = (Raise (HTTPError (status_code r)), w1))
      /\ (status_code r = 403%Z ->
          get_manifest E ark w = get_manifest_fallback E ark w1))
  /\
  (forall k w0,
      let warm := (warmup_gets E ark (requests w0)).1 in
      warmup_round E ark k w0
      = if (warmup_gets E ark (requests w0)).2
        then (Ok (match fetch_json_outcome
                          (server E murl (length warm + requests w0)) with
                  | Ok j => Some j
                  | Raise _ => None
                  end),
              after w0 (round_sleep k :: warm ++ [EGet murl]) (S (length warm)) 0)
        else (Ok None, after w0 (round_sleep k :: warm) (length warm) 0))
  /\
  (forall w0,
      get_manifest_fallback E ark w0
      = match warmup_round E ark 1 w0 with
        | (Ok (Some j), wa) => (Ok j, wa)
        | (Raise e, wa) => (Raise e, wa)
        | (Ok None, wa) =>
            match warmup_round E ark 2 wa with
            | (Ok (Some j), wb) => (Ok j, wb)
            | (Raise e, wb) => (Raise e, wb)
            | (Ok None, wb) =>
                match warmup_round E ark 3 wb with
                | (Ok (Some j), wc) => (Ok j, wc)
                | (Raise e, wc) => (Raise e, wc)
                | (Ok None, wc) => html_fallback E ark wc
                end
            end
        end)
  /\
  (forall wc, exists res w' tail,
      html_fallback E ark wc = (res, w')
      /\ trace w' = (trace wc ++ EGet (viewer_page ark) :: tail)%list).
Proof.
  intros murl w1. split; [| split; [| split]].
  - intros r Hr.
    assert (get_manifest E ark w
            = match fetch_json_outcome (Reply r) with
              | Ok j => (Ok j, w1)
              | Raise (HTTPError status) =>
                  if (status =? 403)%Z then get_manifest_fallback E ark w1
                  else (Raise (HTTPError status), w1)
              | Raise e => (Raise e, w1)
              end) as Hg.
    { unfold get_manifest. unfold mbind at 1. unfold M_bind at 1. unfold attempt.
      rewrite fetch_json. fold murl. rewrite Hr. fold w1.
      destruct (fetch_json_outcome (Reply r)) as [j|[]]; try reflexivity.
      destruct (status =? 403)%Z; reflexivity. }
    rewrite Hg. unfold fetch_json_outcome. split.
    + intros Hrange Hne.
      replace ((400 <=? status_code r) && (status_code r <? 600))%Z with true by lia.
      now replace (status_code r =? 403)%Z with false by lia.
    + intros ->. reflexivity.
  - intros k w0. apply warmup_round_spec.
  - intros w0. unfold get_manifest_fallback. simpl for_each.
    unfold mbind, M_bind.
    destruct (warmup_round E ark 1 w0) as [[[j|]|e] wa]; try reflexivity.
    destruct (warmup_round E ark 2 wa) as [[[j|]|e] wb]; try reflexivity.
    destruct (warmup_round E ark 3 wb) as [[[j|]|e] wc]; reflexivity.
  - intros wc. apply html_fallback_starts.
Qed.

(** A manifest answered by 404 is a fatal error after one request. *)
Lemma get_manifest_strategies_witness :
  get_manifest (env_always 404 []) sample_ark empty_world
  = (Raise (HTTPError 404), after empty_world [EGet (manifest_url sample_ark)] 1 0).
Proof.
  apply (proj1 (proj1 (get_manifest_strategies (env_always 404 []) sample_ark empty_world)
                  {| status_code := 404; json_body := None; text := ""; chunks := [] |}
                  eq_refl)).
  - split; [apply Zle_bool_imp_le |]; reflexivity.
  - discriminate.
Defined.

(** C2, as stated, fails: when the manifest answers 403 and no viewer page
    answers, each round sleeps and warms up but does not retry the direct
    fetch; the manifest URL is requested once in the whole resolution. *)
Lemma get_manifest_round_without_retry :
  let murl := manifest_url sample_ark in
  let v1 := "https://gallica.bnf.fr/ark:/12148/bd6t54208770t/f1.item" in
  let v2 := "https://gallica.bnf.fr/ark:/12148/bd6t54208770t" in
  let out := get_manifest (env_403_offline sample_ark) sample_ark empty_world in
  out.1 = Raise (RuntimeError manifest_error)
  /\ trace out.2
     = [EGet murl;
        round_sleep 1; EGet v1; EGet v2;
        round_sleep 2; EGet v1; EGet v2;
        round_sleep 3; EGet v1; EGet v2;
        EGet v1; EGet v2].
Proof. split; reflexivity. Qed.

(* ===================================================================== *)
(** * Properties of the assembler *)
(* ===================================================================== *)

Section Assembly.

Variable E : env.

Lemma read_images_spec (ps : list string) (w w' : world) (ds : list (list Byte.byte)) :
  read_images ps w = (Ok ds, w') -> w' = w /\ length ds = length ps.
Proof.
  revert ds w'. induction ps as [|p ps IH]; intros ds w'; simpl.
  - intros [= <- <-]. auto.
  - unfold mbind, M_bind, read_image.
    destruct (fs w !! p) as [[d|]|]; try discriminate.
    destruct (read_images ps w) as [[ds0|e] w0]; [| discriminate].
    destruct (IH ds0 w0 eq_refl) as [-> Hlen].
    intros [= <- <-]. simpl. auto.
Qed.

Lemma page_src_embedded (ps : list string) (ds : list (list Byte.byte)) :
  length ds = length ps ->
  map page_src (zip_with embedded ps ds) = ps
  /\ Forall (fun p => page_rgb p = false) (zip_with embedded ps ds).
Proof.
  revert ds. induction ps as [|p ps IH]; intros [|d ds]; simpl; try discriminate.
  - auto.
  - intros [= Hlen]. destruct (IH ds Hlen) as [-> HF]. auto.
Qed.

Lemma pil_open_all_spec (ps : list string) (w w' : world) (ims : list page) :
  pil_open_all E ps w = (Ok ims, w') ->
  w' = w /\ map page_src ims = ps /\ Forall (fun p => page_rgb p = true) ims.
Proof.
  revert ims w'. induction ps as [|p ps IH]; intros ims w'; simpl.
  - intros [= <- <-]. auto.
  - unfold mbind, M_bind, pil_open_rgb, mbind, M_bind, read_image.
    destruct (fs w !! p) as [[d|]|]; try discriminate.
    destruct (pillow_decodes E d); [| discriminate]. simpl.
    destruct (pil_open_all E ps w) as [[ims0|e] w0]; [| discriminate].
    destruct (IH ims0 w0 eq_refl) as (-> & Hsrc & HF).
    intros [= <- <-]. simpl. rewrite Hsrc. auto.
Qed.

(** The primary strategy writes one page per image, in the order of the
    images, without decoding. *)
Lemma assemble_img2pdf_order (images : list string) (out_pdf : string) (w w' : world) :
  assemble_img2pdf E images out_pdf w = (Ok tt, w') ->
  exists pages,
    fs w' !! out_pdf = Some (FPdf pages)
    /\ map page_src pages = images
    /\ Forall (fun p => page_rgb p = false) pages.
Proof.
  unfold assemble_img2pdf. destruct (has_img2pdf E); [| discriminate].
  unfold mbind, M_bind, write_file, img2pdf_convert, mbind, M_bind.
  destruct (read_images images _) as [[ds|e] w0] eqn:Hread; [| discriminate].
  apply read_images_spec in Hread as [-> Hlen].
  destruct (img2pdf_accepts E ds); [| discriminate].
  intros [= <-]. exists (zip_with embedded images ds). simpl.
  rewrite lookup_insert_eq. split; [reflexivity |].
  now apply page_src_embedded.
Qed.

(** The fallback strategy writes the first decoded image and then the
    others, in the order of the images. *)
Lemma assemble_pillow_order (images : list string) (out_pdf : string) (w w' : world) :
  assemble_pillow E images out_pdf w = (Ok tt, w') ->
  exists pages,
    fs w' !! out_pdf = Some (FPdf pages)
    /\ map page_src pages = images
    /\ Forall (fun p => page_rgb p = true) pages.
Proof.
  unfold assemble_pillow. destruct (has_pillow E); [| discriminate].
  unfold mbind, M_bind.
  destruct (pil_open_all E images w) as [[ims|e] w0] eqn:Hopen; [| discriminate].
  apply pil_open_all_spec in Hopen as (-> & Hsrc & HF).
  destruct ims as [|first rest]; [discriminate |].
  unfold write_file. intros [= <-]. exists (first :: rest). simpl.
  rewrite lookup_insert_eq. auto.
Qed.

(** [assemble_pdf] in terms of its two strategies. *)
Lemma assemble_pdf_unfold (images : list string) (out_pdf : string) (w : world) :
  assemble_pdf E images out_pdf w
  = match assemble_img2pdf E images out_pdf w with
    | (Ok _, w1) => (Ok tt, w1)
    | (Raise _, w1) =>
        match assemble_pillow E images out_pdf w1 with
        | (Ok _, w2) => (Ok tt, w2)
        | (Raise e, w2) => (Raise (RuntimeError (assemble_error e)), w2)
        end
    end.
Proof.
  unfold assemble_pdf, mbind, M_bind, attempt.
  destruct (assemble_img2pdf E images out_pdf w) as [[[]|e1] w1]; [reflexivity |].
  destruct (assemble_pillow E images out_pdf w1) as [[[]|e2] w2]; reflexivity.
Qed.

Lemma assemble_pdf_order (images : list string) (out_pdf : string) (w w' : world) :
  assemble_pdf E images out_pdf w = (Ok tt, w') ->
  exists pages,
    fs w' !! out_pdf = Some (FPdf pages) /\ map page_src pages = images.
Proof.
  rewrite assemble_pdf_unfold.
  destruct (assemble_img2pdf E images out_pdf w) as [[[]|e1] w1] eqn:H1.
  - intros [= <-]. apply assemble_img2pdf_order in H1 as (pages & ? & ? & _). eauto.
  - destruct (assemble_pillow E images out_pdf w1) as [[[]|e2] w2] eqn:H2;
      [| discriminate].
    intros [= <-]. apply assemble_pillow_order in H2 as (pages & ? & ? & _). eauto.
Qed.

End Assembly.

(** C4.  Whatever the order in which the download jobs completed, when
    the run reaches the assembler and the assembler succeeds, the document
    written has one page per canvas and its pages come, in this order,
    from page_0001.jpg, page_0002.jpg, … up to the page of the last
    canvas; each of the two strategies keeps the order of the images it
    is given. *)
Theorem assembled_page_order (E : env) (a : args) (img_dir out_pdf : string)
    (canvases : list json) (order : list nat) (w w' : world) :
  download_and_assemble E a img_dir out_pdf canvases order w = (Ok tt, w') ->
  (exists pages,
      fs w' !! out_pdf = Some (FPdf pages)
      /\ map page_src pages
         = map (fun i => img_dir ++ "/page_" ++ Str.pad04 i ++ ".jpg")
             (seq 1 (length canvases)))
  /\ (forall images out w0 w1,
         assemble_img2pdf E images out w0 = (Ok tt, w1) ->
         exists pages, fs w1 !! out = Some (FPdf pages) /\ map page_src pages = images)
  /\ (forall images out w0 w1,
         assemble_pillow E images out w0 = (Ok tt, w1) ->
         exists pages, fs w1 !! out = Some (FPdf pages) /\ map page_src pages = images).
Proof.
  intros Hrun. split; [| split].
  - unfold download_and_assemble in Hrun. unfold mbind, M_bind in Hrun.
    destruct (build_jobs img_dir (arg_max_width a) 1 canvases w)
      as [[jobs|e] w1]; [| discriminate].
    destruct (parallel_download E jobs order (arg_sleep a) w1)
      as [[[]|e] w2]; [| discriminate].
    unfold missing_images in Hrun.
    destruct (filter _ _) as [|m ms]; [| discriminate].
    apply assemble_pdf_order in Hrun as (pages & Hfs & Hsrc).
    exists pages. split; [exact Hfs |]. exact Hsrc.
  - intros images out w0 w1 H.
    apply assemble_img2pdf_order in H as (pages & ? & ? & _). eauto.
  - intros images out w0 w1 H.
    apply assemble_pillow_order in H as (pages & ? & ? & _). eauto.
Qed.

(** The pages of a run in which page 2 was downloaded before page 1. *)
Lemma assembled_page_order_witness :
  exists pages,
    fs two_page_run.2 !! "out.pdf" = Some (FPdf pages)
    /\ map page_src pages = ["w/images/page_0001.jpg"; "w/images/page_0002.jpg"].
Proof.
  apply (proj1 (assembled_page_order (env_always 200 small_body) sample_args
                  "w/images" "out.pdf" two_canvases [1%nat; 0%nat] empty_world
                  two_page_run.2 eq_refl)).
Defined.

(** The completion order is visible in the requests, not in the pages. *)
Example two_page_run_requests :
  trace two_page_run.2
  = [EGet "https://gallica.bnf.fr/iiif/ark:/12148/bd6t54208770t/f2/full/2000,/0/default.jpg";
     EGet "https://gallica.bnf.fr/iiif/ark:/12148/bd6t54208770t/f1/full/2000,/0/default.jpg"].
Proof. reflexivity. Qed.

(** C8 (as amended).  The fallback runs exactly when the primary strategy
    raised, whatever the exception: the missing library is one cause, a
    failing conversion is another.  When the primary succeeds the fallback
    is not consulted; when the fallback raises too, and in particular when
    neither library is installed, assembly fails with the guidance that
    names img2pdf and pillow. *)
Theorem assemble_pdf_strategies (E : env) (images : list string) (out_pdf : string)
    (w : world) :
  (forall w1,
      assemble_img2pdf E images out_pdf w = (Ok tt, w1) ->
      assemble_pdf E images out_pdf w = (Ok tt, w1))
  /\ (forall e w1,
         assemble_img2pdf E images out_pdf w = (Raise e, w1) ->
         assemble_pdf E images out_pdf w
         = match assemble_pillow E images out_pdf w1 with
           | (Ok _, w2) => (Ok tt, w2)
           | (Raise e2, w2) => (Raise (RuntimeError (assemble_error e2)), w2)
           end)
  /\ (has_img2pdf E = false ->
      assemble_img2pdf E images out_pdf w = (Raise ImportError, w))
  /\ (has_img2pdf E = false -> has_pillow E = false ->
      assemble_pdf E images out_pdf w
      = (Raise (RuntimeError (assemble_error ImportError)), w)
      /\ occurs_in "pip install img2pdf" (assemble_error ImportError) = true
      /\ occurs_in "pip install pillow" (assemble_error ImportError) = true).
Proof.
  split; [| split; [| split]].
  - intros w1 H. now rewrite assemble_pdf_unfold, H.
  - intros e w1 H. now rewrite assemble_pdf_unfold, H.
  - intros H. unfold assemble_img2pdf. now rewrite H.
  - intros H1 H2. split; [| split; vm_compute; reflexivity].
    rewrite assemble_pdf_unfold. unfold assemble_img2pdf, assemble_pillow.
    now rewrite H1, H2.
Qed.

Lemma assemble_pdf_strategies_witness :
  assemble_pdf env_no_library [sample_out] "out.pdf" one_page_world
  = (Raise (RuntimeError (assemble_error ImportError)), one_page_world).
Proof.
  apply (proj2 (proj2 (proj2 (assemble_pdf_strategies env_no_library [sample_out]
                                "out.pdf" one_page_world))) eq_refl eq_refl).
Defined.

(** C8, as stated, fails: with img2pdf installed but rejecting the image,
    the document is written by the Pillow fallback. *)
Lemma fallback_used_with_img2pdf_installed :
  let out := assemble_pdf env_img2pdf_rejects [sample_out] "out.pdf" one_page_world in
  has_img2pdf env_img2pdf_rejects = true
  /\ out.1 = Ok tt
  /\ made_by_pillow out.2 "out.pdf".
Proof.
  intros out. split; [reflexivity | split; [reflexivity |]].
  eexists _, _. split; [vm_compute; reflexivity | reflexivity].
Qed.

(* ===================================================================== *)
(** * The whole run *)
(* ===================================================================== *)

(** The scenario of the specification: 403 on the direct fetch and in the
    three rounds, a manifest found by scraping, three canvases, three
    downloads, a document of three pages in the order of the canvases. *)
Example scraping_run_three_pages :
  scraping_run.1 = Ok tt
  /\ count_gets (trace scraping_run.2) = 13%nat
  /\ sleeps (trace scraping_run.2) = [round_wait 1; round_wait 2; round_wait 3]
  /\ exists pages,
       fs scraping_run.2 !! "bd6t54208770t.pdf" = Some (FPdf pages)
       /\ map page_src pages
          = ["gallica_bd6t54208770t/images/page_0001.jpg";
             "gallica_bd6t54208770t/images/page_0002.jpg";
             "gallica_bd6t54208770t/images/page_0003.jpg"].
Proof.
  split; [vm_compute; reflexivity |].
  split; [vm_compute; reflexivity |].
  split; [vm_compute; reflexivity |].
  eexists. split; [vm_compute; reflexivity | reflexivity].
Qed.

(* ===================================================================== *)
(** * Further properties of the download engine *)
(* ===================================================================== *)

Lemma count_gets_app (a b : list event) :
  count_gets (a ++ b) = (count_gets a + count_gets b)%nat.
Proof.
  induction a as [|[u|d] a IH]; simpl; [reflexivity | now rewrite IH | exact IH].
Qed.

Lemma sleeps_app (a b : list event) : sleeps (a ++ b) = (sleeps a ++ sleeps b)%list.
Proof.
  induction a as [|[u|d] a IH]; simpl; [reflexivity | exact IH | now rewrite IH].
Qed.



Section DownloadMore.

Variable E : env.

(** An attempt answered by 200: the body is stored and the loop returns. *)
Lemma download_attempt_ok (url out_path : string) (pause : Q) (k : nat)
    (r : response) (w : world) :
  server E url (requests w) = Reply r ->
  status_code r = 200%Z ->
  download_attempt E url out_path pause k w
  = (Ok (Some tt),
     {| fs := stored (fs w) out_path (written (chunks r));
        trace := trace w ++ EGet url :: pause_events pause;
        requests := S (requests w); draws := draws w |}).
Proof.
  intros Hr H200. unfold download_attempt.
  unfold mbind at 1. unfold M_bind at 1.
  rewrite (session_get_reply E _ _ _ Hr), H200. cbn [Z.eqb Pos.eqb].
  unfold write_file, os_replace, pause_events, stored. run_M.
  rewrite lookup_insert_eq.
  destruct (Qle_bool pause 0); run_M; unfold sleep, log; simpl;
    rewrite <- ?app_assoc; reflexivity.
Qed.

(** An attempt that gets no answer raises the transport error. *)
Lemma download_attempt_no_reply (url out_path : string) (pause : Q) (k : nat)
    (w : world) :
  server E url (requests w) = NoReply ->
  download_attempt E url out_path pause k w
  = (Raise ConnectionError, after w [EGet url] 1 0).
Proof.
  intros Hr. unfold download_attempt, session_get, after. run_M. now rewrite Hr.
Qed.

(** After [j] retryable answers the loop is at its next attempt, [j]
    requests, sleeps and random draws later. *)
Lemma for_each_retry_prefix (url out_path : string) (pause : Q) (j : nat)
    (ks rest : list nat) (w : world) :
  length ks = j ->
  (forall i, (i < j)%nat ->
     exists r, server E url (i + requests w) = Reply r
               /\ is_retryable (status_code r) = true) ->
  for_each (ks ++ rest) (download_attempt E url out_path pause) w
  = for_each rest (download_attempt E url out_path pause)
      (after w (retry_events E url ks (draws w)) j j).
Proof.
  revert j w. induction ks as [|k ks IH]; intros j w Hlen Hall; simpl in Hlen; subst j.
  - simpl. now rewrite after_nil.
  - destruct (Hall 0%nat ltac:(simpl; lia)) as (r & Hr & Hs). simpl in Hr.
    cbn [app for_each]. unfold mbind at 1. unfold M_bind at 1.
    rewrite (download_attempt_retry E _ _ _ _ _ _ Hr Hs).
    rewrite (IH (length ks)); [| reflexivity |].
    + rewrite after_after.
      replace (length ks + 1)%nat with (S (length ks)) by lia. reflexivity.
    + intros i Hi. destruct (Hall (S i) ltac:(simpl; lia)) as (r' & Hr' & Hs').
      exists r'. split; [| exact Hs']. simpl requests.
      now replace (i + S (requests w))%nat with (S i + requests w)%nat by lia.
Qed.







End DownloadMore.

(** X1.  A job answered by 403, 429 or 503 [j] times (j < 8) and then by
    200 succeeds: it made j + 1 requests, slept the j backoff waits (and
    the pause, if any), and left the body at the destination. *)
Theorem download_retry_then_success (E : env) (url out_path : string) (pause : Q)
    (j : nat) (r : response) (w : world) :
  (j < 8)%nat ->
  to_download w out_path ->
  (forall i, (i < j)%nat ->
     exists r', server E url (i + requests w) = Reply r'
                /\ is_retryable (status_code r') = true) ->
  server E url (j + requests w) = Reply r ->
  status_code r = 200%Z ->
  download_with_backoff E url out_path pause w
  = (Ok tt,
     {| fs := stored (fs w) out_path (written (chunks r));
        trace := trace w ++ retry_events E url (seq 1 j) (draws w)
                 ++ EGet url :: pause_events pause;
        requests := S j + requests w;
        draws := j + draws w |}).
Proof.
  intros Hj Hneed Hall Hr H200.
  unfold download_with_backoff. unfold mbind at 1. unfold M_bind at 1.
  rewrite (already_fetched_false _ _ Hneed).
  unfold MAX_TRIES. replace 8%nat with (j + S (7 - j))%nat by lia.
  rewrite seq_app. cbn [seq].
  unfold mbind at 1. unfold M_bind at 1.
  rewrite (for_each_retry_prefix E url out_path pause j (seq 1 j)); [| apply length_seq | exact Hall].
  cbn [for_each]. unfold mbind at 1. unfold M_bind at 1.
  rewrite (download_attempt_ok E url out_path pause _ r); [| exact Hr | exact H200].
  run_M. unfold after. simpl. now rewrite <- app_assoc.
Qed.

Lemma download_retry_then_success_witness :
  download_with_backoff env_503_twice sample_url sample_out 0 empty_world
  = (Ok tt,
     {| fs := stored ∅ sample_out [Byte.xff; Byte.xd8; Byte.xff];
        trace := retry_events env_503_twice sample_url [1; 2]%nat 0 ++ [EGet sample_url];
        requests := 3; draws := 2 |}).
Proof.
  apply (download_retry_then_success env_503_twice sample_url sample_out 0 2
           {| status_code := 200; json_body := None; text := ""; chunks := small_body |}
           empty_world).
  - lia.
  - exact I.
  - intros i Hi. destruct i as [|[|i]]; [| | lia]; eexists; split; reflexivity.
  - reflexivity.
  - reflexivity.
Defined.

(** X2.  A request that gets no answer (a transport failure) is not
    retried: after [j] retryable answers (j < 8) the error of
    [session.get] leaves the job at once, with no further request or
    sleep and the files untouched. *)
Theorem download_transport_error_not_retried (E : env) (url out_path : string)
    (pause : Q) (j : nat) (w : world) :
  (j < 8)%nat ->
  to_download w out_path ->
  (forall i, (i < j)%nat ->
     exists r', server E url (i + requests w) = Reply r'
                /\ is_retryable (status_code r') = true) ->
  server E url (j + requests w) = NoReply ->
  download_with_backoff E url out_path pause w
  = (Raise ConnectionError,
     after w (retry_events E url (seq 1 j) (draws w) ++ [EGet url]) (S j) j).
Proof.
  intros Hj Hneed Hall Hr.
  unfold download_with_backoff. unfold mbind at 1. unfold M_bind at 1.
  rewrite (already_fetched_false _ _ Hneed).
  unfold MAX_TRIES. replace 8%nat with (j + S (7 - j))%nat by lia.
  rewrite seq_app. cbn [seq].
  unfold mbind at 1. unfold M_bind at 1.
  rewrite (for_each_retry_prefix E url out_path pause j (seq 1 j)); [| apply length_seq | exact Hall].
  cbn [for_each]. unfold mbind at 1. unfold M_bind at 1.
  rewrite (download_attempt_no_reply E url out_path pause); [| exact Hr].
  rewrite after_after. reflexivity.
Qed.

Lemma download_transport_error_not_retried_witness :
  download_with_backoff env_offline sample_url sample_out 0 empty_world
  = (Raise ConnectionError, after empty_world [EGet sample_url] 1 0).
Proof.
  apply (download_transport_error_not_retried env_offline sample_url sample_out 0 0
           empty_world).
  - lia.
  - exact I.
  - intros i Hi. lia.
  - reflexivity.
Defined.





(* ===================================================================== *)
(** * Further properties of the manifest resolver *)
(* ===================================================================== *)

Lemma after_compose (w : world) (e1 e2 : list event) :
  after (after w e1 (count_gets e1) 0) e2 (count_gets e2) 0
  = after w (e1 ++ e2) (count_gets (e1 ++ e2)) 0.
Proof. rewrite after_after, count_gets_app. f_equal. lia. Qed.

Section ManifestMore.

Variable E : env.

Lemma get_manifest_unfold (ark : string) (w : world) :
  get_manifest E ark w
  = match fetch_json_outcome (server E (manifest_url ark) (requests w)) with
    | Ok j => (Ok j, after w [EGet (manifest_url ark)] 1 0)
    | Raise (HTTPError status) =>
        if (status =? 403)%Z
        then get_manifest_fallback E ark (after w [EGet (manifest_url ark)] 1 0)
        else (Raise (HTTPError status), after w [EGet (manifest_url ark)] 1 0)
    | Raise e => (Raise e, after w [EGet (manifest_url ark)] 1 0)
    end.
Proof.
  unfold get_manifest. unfold mbind at 1. unfold M_bind at 1. unfold attempt.
  rewrite fetch_json.
  destruct (fetch_json_outcome _) as [j|[]]; try reflexivity.
  destruct (status =? 403)%Z; reflexivity.
Qed.

Lemma get_manifest_fallback_unfold (ark : string) (w : world) :
  get_manifest_fallback E ark w
  = match warmup_round E ark 1 w with
    | (Ok (Some j), wa) => (Ok j, wa)
    | (Raise e, wa) => (Raise e, wa)
    | (Ok None, wa) =>
        match warmup_round E ark 2 wa with
        | (Ok (Some j), wb) => (Ok j, wb)
        | (Raise e, wb) => (Raise e, wb)
        | (Ok None, wb) =>
            match warmup_round E ark 3 wb with
            | (Ok (Some j), wc) => (Ok j, wc)
            | (Raise e, wc) => (Raise e, wc)
            | (Ok None, wc) => html_fallback E ark wc
            end
        end
    end.
Proof.
  unfold get_manifest_fallback. cbn [seq for_each]. unfold mbind, M_bind.
  destruct (warmup_round E ark 1 w) as [[[j|]|e] wa]; try reflexivity.
  destruct (warmup_round E ark 2 wa) as [[[j|]|e] wb]; try reflexivity.
  destruct (warmup_round E ark 3 wb) as [[[j|]|e] wc]; reflexivity.
Qed.

(** A round never raises; it sleeps once and issues at most 3 requests. *)
Lemma warmup_round_advances (ark : string) (k : nat) (w : world) :
  exists res evs,
    warmup_round E ark k w
    = (Ok res, after w (round_sleep k :: evs) (count_gets evs) 0)
    /\ (count_gets evs <= 3)%nat /\ sleeps evs = [].
Proof.
  rewrite warmup_round_spec. unfold warmup_gets, viewer_urls.
  destruct (server E _ (requests w)); cbn [fst snd length];
    [| destruct (server E _ (S (requests w))); cbn [fst snd length]];
    match goal with
    | |- context [after w (_ :: ?l) _ 0] => eexists _, l
    end;
    (split; [reflexivity |]); simpl; (split; [lia | reflexivity]).
Qed.

(** Scraping a page never raises, never sleeps, and issues 1 or 2
    requests. *)
Lemma scrape_advances (u : string) (w : world) :
  exists res evs,
    scrape E u w = (Ok res, after w evs (count_gets evs) 0)
    /\ (count_gets evs <= 2)%nat /\ sleeps evs = [].
Proof.
  unfold scrape, try_except_pass.
  unfold mbind at 1. unfold M_bind at 1. unfold attempt.
  unfold mbind at 1. unfold M_bind at 1.
  unfold session_get.
  destruct (server E u (requests w)) as [rr|].
  - unfold mbind at 1. unfold M_bind at 1. unfold raise_for_status.
    destruct ((400 <=? status_code rr) && (status_code rr <? 600))%Z.
    + exists None, [EGet u]. simpl. auto.
    + unfold mret at 1. unfold M_ret at 1.
      destruct (extract_manifest_from_html (text rr)) as [alt|].
      * rewrite fetch_json_some.
        destruct (fetch_json_outcome _) as [j|e].
        -- exists (Some j), [EGet u; EGet alt]. unfold after. simpl.
           rewrite <- app_assoc. auto.
        -- exists None, [EGet u; EGet alt]. unfold after. simpl.
           rewrite <- app_assoc. auto.
      * exists None, [EGet u]. simpl. auto.
  - exists None, [EGet u]. simpl. auto.
Qed.

Lemma html_fallback_advances (ark : string) (w : world) :
  exists res evs,
    html_fallback E ark w = (res, after w evs (count_gets evs) 0)
    /\ (count_gets evs <= 4)%nat /\ sleeps evs = [].
Proof.
  unfold html_fallback, viewer_urls. cbn [for_each].
  destruct (scrape_advances ("https://gallica.bnf.fr/ark:/12148/" ++ ark ++ "/f1.item") w)
    as (res1 & e1 & H1 & Hc1 & Hs1).
  unfold mbind at 1 2. unfold M_bind at 1 2. rewrite H1.
  destruct res1 as [j|].
  - run_M. exists (Ok j), e1. split; [reflexivity |]. split; [lia | exact Hs1].
  - destruct (scrape_advances ("https://gallica.bnf.fr/ark:/12148/" ++ ark)
                (after w e1 (count_gets e1) 0)) as (res2 & e2 & H2 & Hc2 & Hs2).
    unfold mbind at 1. unfold M_bind at 1. rewrite H2, after_compose.
    destruct res2 as [j|]; run_M; eexists _, (e1 ++ e2)%list;
      (split; [reflexivity |]); rewrite count_gets_app, sleeps_app, Hs1, Hs2;
      (split; [lia | reflexivity]).
Qed.

End ManifestMore.

Lemma get_manifest_fallback_advances (E : env) (ark : string) (w : world) :
  exists res evs,
    get_manifest_fallback E ark w = (res, after w evs (count_gets evs) 0)
    /\ (count_gets evs <= 13)%nat
    /\ sleeps evs `prefix_of` [round_wait 1; round_wait 2; round_wait 3].
Proof.
  rewrite get_manifest_fallback_unfold.
  destruct (warmup_round_advances E ark 1 w) as (r1 & e1 & H1 & Hc1 & Hs1).
  rewrite H1.
  change (after w (round_sleep 1 :: e1) (count_gets e1) 0)
    with (after w (round_sleep 1 :: e1) (count_gets (round_sleep 1 :: e1)) 0).
  destruct r1 as [j|].
  { eexists _, _. split; [reflexivity |]. simpl. rewrite Hs1.
    split; [lia | now exists [round_wait 2; round_wait 3]]. }
  destruct (warmup_round_advances E ark 2
              (after w (round_sleep 1 :: e1) (count_gets (round_sleep 1 :: e1)) 0))
    as (r2 & e2 & H2 & Hc2 & Hs2).
  rewrite H2.
  change (after ?x (round_sleep 2 :: e2) (count_gets e2) 0)
    with (after x (round_sleep 2 :: e2) (count_gets (round_sleep 2 :: e2)) 0).
  rewrite after_compose.
  destruct r2 as [j|].
  { eexists _, _. split; [reflexivity |].
    rewrite count_gets_app, sleeps_app. simpl. rewrite Hs1, Hs2.
    split; [lia | now exists [round_wait 3]]. }
  destruct (warmup_round_advances E ark 3
              (after w ((round_sleep 1 :: e1) ++ round_sleep 2 :: e2)
                 (count_gets ((round_sleep 1 :: e1) ++ round_sleep 2 :: e2)) 0))
    as (r3 & e3 & H3 & Hc3 & Hs3).
  rewrite H3.
  change (after ?x (round_sleep 3 :: e3) (count_gets e3) 0)
    with (after x (round_sleep 3 :: e3) (count_gets (round_sleep 3 :: e3)) 0).
  rewrite after_compose.
  destruct r3 as [j|].
  { eexists _, _. split; [reflexivity |].
    rewrite !count_gets_app, !sleeps_app. simpl. rewrite Hs1, Hs2, Hs3.
    split; [lia | now exists []]. }
  destruct (html_fallback_advances E ark
              (after w (((round_sleep 1 :: e1) ++ round_sleep 2 :: e2)
                        ++ round_sleep 3 :: e3)
                 (count_gets (((round_sleep 1 :: e1) ++ round_sleep 2 :: e2)
                              ++ round_sleep 3 :: e3)) 0))
    as (r4 & e4 & H4 & Hc4 & Hs4).
  rewrite H4, after_compose.
  eexists _, _. split; [reflexivity |].
  rewrite !count_gets_app, !sleeps_app. simpl. rewrite Hs1, Hs2, Hs3, Hs4.
  split; [lia | now exists []].
Qed.

(** X5.  The warm-up does not look at the HTTP status: it returns as soon
    as one of the two viewer pages answers, the first page first, and
    raises (the last transport error) only when neither answers. *)
Theorem warmup_stops_at_first_answer (E : env) (ark : string) (w : world) :
  (forall r,
      server E (viewer_page ark) (requests w) = Reply r ->
      warmup E ark w = (Ok tt, after w [EGet (viewer_page ark)] 1 0))
  /\ (forall r,
         server E (viewer_page ark) (requests w) = NoReply ->
         server E (viewer_root ark) (S (requests w)) = Reply r ->
         warmup E ark w
         = (Ok tt, after w [EGet (viewer_page ark); EGet (viewer_root ark)] 2 0))
  /\ (server E (viewer_page ark) (requests w) = NoReply ->
      server E (viewer_root ark) (S (requests w)) = NoReply ->
      warmup E ark w
      = (Raise ConnectionError,
         after w [EGet (viewer_page ark); EGet (viewer_root ark)] 2 0)).
Proof.
  unfold warmup.
  change (viewer_urls ark) with [viewer_page ark; viewer_root ark].
  cbn [warmup_loop]. unfold attempt, session_get, after. run_M.
  repeat split.
  - intros r ->. reflexivity.
  - intros r H1 H2. rewrite H1. run_M. rewrite H2. simpl. now rewrite <- app_assoc.
  - intros H1 H2. rewrite H1. run_M. rewrite H2. simpl. now rewrite <- app_assoc.
Qed.

Lemma warmup_stops_at_first_answer_witness :
  warmup (env_always 500 []) sample_ark empty_world
  = (Ok tt, after empty_world [EGet (viewer_page sample_ark)] 1 0).
Proof.
  apply (proj1 (warmup_stops_at_first_answer (env_always 500 []) sample_ark empty_world)
           {| status_code := 500; json_body := None; text := ""; chunks := [] |}).
  reflexivity.
Defined.

(** X6.  The direct fetch of [get_manifest] succeeds on any status outside
    400..599 whose body decodes as JSON, after one request; a body that
    does not decode, or a request that gets no answer, is fatal at once:
    only an HTTP 403 leads to the fallbacks. *)
Theorem get_manifest_direct_outcomes (E : env) (ark : string) (w : world) :
  let murl := manifest_url ark in
  let w1 := after w [EGet murl] 1 0 in
  (forall r j,
      server E murl (requests w) = Reply r ->
      ~ (400 <= status_code r < 600)%Z ->
      json_body r = Some j ->
      get_manifest E ark w = (Ok j, w1))
  /\ (forall r,
         server E murl (requests w) = Reply r ->
         ~ (400 <= status_code r < 600)%Z ->
         json_body r = None ->
         get_manifest E ark w = (Raise JSONDecodeError, w1))
  /\ (server E murl (requests w) = NoReply ->
      get_manifest E ark w = (Raise ConnectionError, w1)).
Proof.
  intros murl w1. repeat split.
  - intros r j Hr Hs Hj. rewrite get_manifest_unfold. fold murl. rewrite Hr.
    unfold fetch_json_outcome.
    replace ((400 <=? status_code r) && (status_code r <? 600))%Z with false by lia.
    now rewrite Hj.
  - intros r Hr Hs Hj. rewrite get_manifest_unfold. fold murl. rewrite Hr.
    unfold fetch_json_outcome.
    replace ((400 <=? status_code r) && (status_code r <? 600))%Z with false by lia.
    now rewrite Hj.
  - intros Hr. rewrite get_manifest_unfold. fold murl. now rewrite Hr.
Qed.

Lemma get_manifest_direct_outcomes_witness :
  get_manifest (env_always 200 []) sample_ark empty_world
  = (Raise JSONDecodeError, after empty_world [EGet (manifest_url sample_ark)] 1 0).
Proof.
  apply (proj1 (proj2 (get_manifest_direct_outcomes (env_always 200 []) sample_ark
                         empty_world))
           {| status_code := 200; json_body := None; text := ""; chunks := [] |}).
  - reflexivity.
  - intros [H _]. now apply H.
  - reflexivity.
Defined.

(** X7.  Whatever the server does, [get_manifest] ends after at most 14
    requests, and the sleeps it takes are the first rounds' 0.7, 1.4 and
    2.1 seconds, in this order, and nothing else; it changes no file and
    draws no random number. *)
Theorem get_manifest_bounded (E : env) (ark : string) (w : world) :
  exists evs,
    (get_manifest E ark w).2 = after w evs (count_gets evs) 0
    /\ (count_gets evs <= 14)%nat
    /\ sleeps evs `prefix_of` [round_wait 1; round_wait 2; round_wait 3].
Proof.
  rewrite get_manifest_unfold.
  assert (exists evs,
             after w [EGet (manifest_url ark)] 1 0 = after w evs (count_gets evs) 0
             /\ (count_gets evs <= 14)%nat
             /\ sleeps evs `prefix_of` [round_wait 1; round_wait 2; round_wait 3])
    as Hone.
  { exists [EGet (manifest_url ark)]. simpl.
    split; [reflexivity |]. split; [lia | now eexists]. }
  destruct (fetch_json_outcome _) as [j|[]]; try exact Hone.
  destruct (status =? 403)%Z; [| exact Hone].
  destruct (get_manifest_fallback_advances E ark (after w [EGet (manifest_url ark)] 1 0))
    as (res & evs & H & Hc & Hs).
  rewrite H.
  change (after w [EGet (manifest_url ark)] 1 0)
    with (after w [EGet (manifest_url ark)] (count_gets [EGet (manifest_url ark)]) 0).
  rewrite after_compose.
  eexists. split; [reflexivity |]. rewrite count_gets_app, sleeps_app. simpl.
  split; [lia | exact Hs].
Qed.

(* ===================================================================== *)
(** * Further properties of the URL and identifier functions *)
(* ===================================================================== *)

Lemma all_chars_app (p : ascii -> bool) (a b : string) :
  all_chars p (a ++ b) = all_chars p a && all_chars p b.
Proof.
  induction a as [|c a IH]; simpl; [reflexivity |].
  now rewrite IH, andb_assoc.
Qed.

Lemma search_some {A} (f : string -> option A) (s : string) (m : A) :
  Str.search f s = Some m -> exists pre post, s = pre ++ post /\ f post = Some m.
Proof.
  induction s as [|c s IH]; simpl.
  - destruct (f "") eqn:Hf; [| discriminate]. intros [= <-]. now exists "", "".
  - destruct (f (String c s)) eqn:Hf.
    + intros [= <-]. now exists "", (String c s).
    + intros H. destruct (IH H) as (pre & post & -> & Hp).
      now exists (String c pre), post.
Qed.

Lemma star_then_shape (cls : ascii -> bool) (suffix s m : string) :
  Str.star_then cls suffix s = Some m ->
  exists run, m = run ++ suffix /\ all_chars cls run = true.
Proof.
  revert m. induction s as [|c s IH]; intros m; simpl.
  - destruct (Str.match_literal false suffix ""); [| discriminate].
    intros [= <-]. now exists "".
  - destruct (cls c) eqn:Hc.
    + destruct (Str.star_then cls suffix s) as [m'|].
      * intros [= <-]. destruct (IH m' eq_refl) as (run & -> & Hall).
        exists (String c run). simpl. now rewrite Hc, Hall.
      * destruct (Str.match_literal false suffix (String c s)); [| discriminate].
        intros [= <-]. now exists "".
    + destruct (Str.match_literal false suffix (String c s)); [| discriminate].
      intros [= <-]. now exists "".
Qed.

Lemma plus_then_shape (cls : ascii -> bool) (suffix s m : string) :
  Str.plus_then cls suffix s = Some m ->
  exists run, run <> "" /\ m = run ++ suffix /\ all_chars cls run = true.
Proof.
  unfold Str.plus_then. destruct s as [|c s]; [discriminate |].
  destruct (cls c) eqn:Hc; [| discriminate].
  destruct (Str.star_then cls suffix s) as [m'|] eqn:Hs; [| discriminate].
  intros [= <-]. destruct (star_then_shape _ _ _ _ Hs) as (run & -> & Hall).
  exists (String c run). simpl. rewrite Hc, Hall. repeat split. discriminate.
Qed.

(** X8.  Whatever the HTML holds, a manifest URL scraped from it is on
    gallica.bnf.fr: it is the IIIF prefix of the archive, a non-empty run
    of characters without quotes, and [/manifest.json]; and a page that
    nowhere contains [/iiif/ark:/12148/] yields no URL. *)
Theorem extract_manifest_from_html_shape (html : string) :
  (forall u,
      extract_manifest_from_html html = Some u ->
      exists run,
        run <> "" /\ all_chars is_not_quote run = true
        /\ u = "https://gallica.bnf.fr/iiif/ark:/12148/" ++ run ++ "/manifest.json")
  /\ ((forall pre post, html <> pre ++ "/iiif/ark:/12148/" ++ post) ->
      extract_manifest_from_html html = None).
Proof.
  unfold extract_manifest_from_html. split.
  - intros u.
    destruct (Str.search manifest_abs_at html) as [g0|] eqn:Habs.
    + intros [= <-]. apply search_some in Habs as (pre & post & _ & Hat).
      unfold manifest_abs_at in Hat.
      destruct (Str.match_literal false _ post) as [s1|]; [| discriminate].
      destruct (Str.plus_then is_not_quote "/manifest.json" s1) as [m|] eqn:Hp;
        [| discriminate].
      injection Hat as <-.
      destruct (plus_then_shape _ _ _ _ Hp) as (run & Hne & -> & Hall).
      exists run. auto.
    + destruct (Str.search manifest_rel_at html) as [g0|] eqn:Hrel; [| discriminate].
      intros [= <-]. apply search_some in Hrel as (pre & post & _ & Hat).
      unfold manifest_rel_at in Hat.
      destruct (Str.match_literal false _ post) as [s1|]; [| discriminate].
      destruct (Str.plus_then is_not_quote "/manifest.json" s1) as [m|] eqn:Hp;
        [| discriminate].
      injection Hat as <-.
      destruct (plus_then_shape _ _ _ _ Hp) as (run & Hne & -> & Hall).
      exists run. auto.
  - intros Hno.
    assert (Str.search manifest_abs_at html = None) as ->.
    { apply search_none_iff. intros pre post ->. unfold manifest_abs_at.
      destruct (Str.match_literal false _ post) as [s1|] eqn:Hl; [| reflexivity].
      apply match_literal_exact_iff in Hl. subst post. exfalso.
      apply (Hno (pre ++ "https://gallica.bnf.fr") s1).
      now rewrite append_assoc. }
    assert (Str.search manifest_rel_at html = None) as ->; [| reflexivity].
    apply search_none_iff. intros pre post ->. unfold manifest_rel_at.
    destruct (Str.match_literal false _ post) as [s1|] eqn:Hl; [| reflexivity].
    apply match_literal_exact_iff in Hl. subst post. exfalso.
    now apply (Hno pre s1).
Qed.

Lemma extract_manifest_from_html_shape_witness :
  exists run,
    run <> "" /\ all_chars is_not_quote run = true
    /\ "https://gallica.bnf.fr/iiif/ark:/12148/bd6t54208770t/manifest.json"
       = "https://gallica.bnf.fr/iiif/ark:/12148/" ++ run ++ "/manifest.json".
Proof.
  apply (proj1 (extract_manifest_from_html_shape
                  "<a href='/iiif/ark:/12148/bd6t54208770t/manifest.json'>IIIF</a>")).
  reflexivity.
Defined.

Lemma rstrip_slash_app (s : string) : Str.rstrip_slash (s ++ "/") = Str.rstrip_slash s.
Proof.
  induction s as [|c s IH]; [reflexivity |].
  simpl. now rewrite IH.
Qed.

(** X9.  A trailing slash on the image service identifier does not change
    the image URL, and an identifier that is not a string (such as the
    [None] a canvas without identifier yields) makes [iiif_jpg_url] raise
    [AttributeError]. *)
Theorem iiif_jpg_url_trailing_slash (max_width : Z) :
  (forall s, iiif_jpg_url (JStr (s ++ "/")) max_width = iiif_jpg_url (JStr s) max_width)
  /\ (forall v, (forall s, v <> JStr s) -> iiif_jpg_url v max_width = Raise AttributeError).
Proof.
  split.
  - intros s. unfold iiif_jpg_url. now rewrite rstrip_slash_app.
  - intros v Hv. destruct v; try reflexivity. now destruct (Hv s).
Qed.

Lemma iiif_jpg_url_trailing_slash_witness :
  iiif_jpg_url JNull 2000 = Raise AttributeError.
Proof.
  apply (proj2 (iiif_jpg_url_trailing_slash 2000)). discriminate.
Defined.

Lemma rstrip_cons (c : ascii) (s : string) :
  Str.rstrip (String c s)
  = match Str.rstrip s with
    | EmptyString => if Str.is_space c then EmptyString else String c EmptyString
    | r => String c r
    end.
Proof. reflexivity. Qed.

Lemma all_chars_lstrip (p : ascii -> bool) (s : string) :
  all_chars p s = true -> all_chars p (Str.lstrip s) = true.
Proof.
  induction s as [|c s IH]; simpl; [auto |].
  intros H. apply andb_true_iff in H as [Hc Hs].
  destruct (Str.is_space c); [auto |]. simpl. now rewrite Hc, Hs.
Qed.

Lemma all_chars_rstrip (p : ascii -> bool) (s : string) :
  all_chars p s = true -> all_chars p (Str.rstrip s) = true.
Proof.
  induction s as [|c s IH]; [auto |]. rewrite rstrip_cons. simpl.
  intros H. apply andb_true_iff in H as [Hc Hs]. specialize (IH Hs).
  destruct (Str.rstrip s).
  - destruct (Str.is_space c); simpl; [reflexivity | now rewrite Hc].
  - simpl in *. now rewrite Hc.
Qed.

Lemma rstrip_idem (s : string) : Str.rstrip (Str.rstrip s) = Str.rstrip s.
Proof.
  induction s as [|c s IH]; [reflexivity |].
  rewrite rstrip_cons.
  destruct (Str.rstrip s) as [|c' r] eqn:Hr.
  - destruct (Str.is_space c) eqn:Hc; simpl; [reflexivity | now rewrite Hc].
  - now rewrite rstrip_cons, IH.
Qed.

Lemma lstrip_starts (s : string) :
  ends_or_starts (fun c => negb (Str.is_space c)) (Str.lstrip s).
Proof.
  induction s as [|c s IH]; simpl; [exact I |].
  destruct (Str.is_space c) eqn:Hc; [exact IH |]. simpl. now rewrite Hc.
Qed.

Lemma rstrip_starts (s : string) :
  ends_or_starts (fun c => negb (Str.is_space c)) s ->
  ends_or_starts (fun c => negb (Str.is_space c)) (Str.rstrip s).
Proof.
  destruct s as [|c s]; [auto |]. rewrite rstrip_cons. simpl. intros Hc.
  destruct (Str.rstrip s).
  - apply negb_true_iff in Hc. rewrite Hc. simpl. now rewrite Hc.
  - exact Hc.
Qed.

Lemma lstrip_id (s : string) :
  ends_or_starts (fun c => negb (Str.is_space c)) s -> Str.lstrip s = s.
Proof.
  destruct s as [|c s]; simpl; [auto |]. intros Hc.
  apply negb_true_iff in Hc. now rewrite Hc.
Qed.

Lemma strip_idem (s : string) : Str.strip (Str.strip s) = Str.strip s.
Proof.
  unfold Str.strip.
  rewrite (lstrip_id (Str.rstrip (Str.lstrip s))).
  - apply rstrip_idem.
  - apply rstrip_starts, lstrip_starts.
Qed.

(** X10.  An identifier resolved from a locator never contains [/], [?]
    or [#], and has no whitespace left around it (stripping it again
    changes nothing). *)
Theorem ark_from_url_result_clean (url ark : string) :
  ark_from_url url = Ok ark ->
  all_chars (fun c => negb (is_boundary c)) ark = true /\ Str.strip ark = ark.
Proof.
  unfold ark_from_url.
  destruct (Str.search ARK_RE_at url) as [g1|] eqn:Hs; [| discriminate].
  intros [= <-]. split; [| apply strip_idem].
  apply search_some in Hs as (pre & post & _ & Hat).
  apply ARK_RE_at_iff in Hat as (rest & lit & _ & _ & _ & Hall & _).
  unfold Str.strip. now apply all_chars_rstrip, all_chars_lstrip.
Qed.

Lemma ark_from_url_result_clean_witness :
  all_chars (fun c => negb (is_boundary c)) "bd6t54208770t" = true
  /\ Str.strip "bd6t54208770t" = "bd6t54208770t".
Proof.
  apply (ark_from_url_result_clean "see /ark:/12148/ bd6t54208770t /f1.item").
  reflexivity.
Defined.

(** The pattern of the identifier found after a prefix that holds no
    earlier match. *)
Lemma ark_after_prefix (pre ark rest : string) :
  (forall k, (k < String.length pre)%nat ->
     ARK_RE_at (string_drop k (pre ++ ark_prefix ++ ark ++ rest)) = None) ->
  ark <> "" ->
  all_chars (fun c => negb (is_boundary c)) ark = true ->
  ends_or_starts is_boundary rest ->
  ark_from_url (pre ++ ark_prefix ++ ark ++ rest) = Ok (Str.strip ark).
Proof.
  intros Hpre Hne Hall Hrest. unfold ark_from_url.
  rewrite (search_first ARK_RE_at pre (ark_prefix ++ ark ++ rest) ark); [reflexivity | |].
  - apply ARK_RE_at_iff. exists rest, ark_prefix. auto.
  - intros pre' post' Heq Hlt. rewrite <- (Hpre _ Hlt), Heq.
    now rewrite string_drop_append.
Qed.

(** X11.  The identifier is read back from the URLs built from it: for a
    non-empty identifier without [/], [?], [#] and without whitespace
    around it, [ark_from_url] applied to its manifest URL or to either of
    its viewer URLs returns the identifier. *)
Theorem ark_from_url_round_trip (ark : string) :
  ark <> "" ->
  all_chars (fun c => negb (is_boundary c)) ark = true ->
  Str.strip ark = ark ->
  ark_from_url (manifest_url ark) = Ok ark
  /\ ark_from_url (viewer_page ark) = Ok ark
  /\ ark_from_url (viewer_root ark) = Ok ark.
Proof.
  intros Hne Hall Hstrip. repeat split.
  - change (manifest_url ark)
      with ("https://gallica.bnf.fr/iiif" ++ ark_prefix ++ ark ++ "/manifest.json").
    rewrite ark_after_prefix, Hstrip; [reflexivity | | assumption | assumption | reflexivity].
    intros k Hk. do 27 (destruct k as [|k]; [reflexivity |]). simpl in Hk. lia.
  - change (viewer_page ark)
      with ("https://gallica.bnf.fr" ++ ark_prefix ++ ark ++ "/f1.item").
    rewrite ark_after_prefix, Hstrip; [reflexivity | | assumption | assumption | reflexivity].
    intros k Hk. do 22 (destruct k as [|k]; [reflexivity |]). simpl in Hk. lia.
  - replace (viewer_root ark)
      with ("https://gallica.bnf.fr" ++ ark_prefix ++ ark ++ "")
      by (unfold viewer_root; simpl; now rewrite append_nil_r).
    rewrite ark_after_prefix, Hstrip; [reflexivity | | assumption | assumption | exact I].
    intros k Hk. do 22 (destruct k as [|k]; [reflexivity |]). simpl in Hk. lia.
Qed.

Lemma ark_from_url_round_trip_witness :
  ark_from_url (manifest_url sample_ark) = Ok sample_ark.
Proof.
  apply (ark_from_url_round_trip sample_ark); [discriminate | reflexivity | reflexivity].
Defined.

(* ===================================================================== *)
(** * Further properties of the page files *)
(* ===================================================================== *)

Lemma to_uint_nonnil (n : nat) : Nat.to_uint n <> Decimal.Nil.
Proof.
  rewrite <- (DecimalNat.Unsigned.of_to n) at 1.
  rewrite DecimalNat.Unsigned.to_of.
  generalize (Nat.to_uint n). intros d.
  induction d; simpl; try discriminate. exact IHd.
Qed.

Lemma read_decimal_decimal (n : nat) : read_decimal (Str.decimal n) = Some n.
Proof.
  unfold read_decimal, Str.decimal.
  rewrite (NilZero.usu _ (to_uint_nonnil n)). simpl.
  now rewrite DecimalNat.Unsigned.of_to.
Qed.

Lemma read_decimal_zero (s : string) :
  s <> "" -> read_decimal (String "0" s) = read_decimal s.
Proof.
  intros Hs. unfold read_decimal, NilZero.uint_of_string.
  destruct s as [|c s]; [contradiction |].
  change (NilEmpty.uint_of_string (String "0" (String c s)))
    with (uint_of_char "0" (NilEmpty.uint_of_string (String c s))).
  destruct (NilEmpty.uint_of_string (String c s)) as [d|]; reflexivity.
Qed.

Lemma read_decimal_zeros (k : nat) (s : string) :
  s <> "" -> read_decimal (Str.zeros k ++ s) = read_decimal s.
Proof.
  intros Hs. induction k as [|k IH]; [reflexivity |].
  simpl. rewrite read_decimal_zero; [exact IH |].
  destruct k; simpl; [exact Hs | discriminate].
Qed.

(** The page number is read back from its zero-padded rendering. *)
Lemma read_decimal_pad04 (n : nat) : read_decimal (Str.pad04 n) = Some n.
Proof.
  unfold Str.pad04. rewrite read_decimal_zeros; [apply read_decimal_decimal |].
  intros H. pose proof (read_decimal_decimal n) as Hr. rewrite H in Hr. discriminate.
Qed.

Lemma append_eq_prefix (a b c d : string) :
  a ++ b = c ++ d -> String.length a = String.length c -> a = c.
Proof.
  revert c. induction a as [|x a IH]; intros [|y c]; simpl; try discriminate.
  - auto.
  - intros [= -> H] [= Hl]. f_equal. eauto.
Qed.

Lemma append_cancel_r (a c s : string) : a ++ s = c ++ s -> a = c.
Proof.
  intros H. apply (append_eq_prefix a s c s H).
  assert (String.length (a ++ s) = String.length (c ++ s)) as Hl by now rewrite H.
  rewrite !length_append in Hl. lia.
Qed.

Lemma page_path_inj (img_dir : string) (i j : nat) :
  page_path img_dir i = page_path img_dir j -> i = j.
Proof.
  unfold page_path. intros H.
  apply (inj (String.append img_dir)) in H.
  apply (inj (String.append "/")) in H.
  apply (inj (String.append "page_")) in H.
  apply append_cancel_r in H.
  assert (read_decimal (Str.pad04 i) = read_decimal (Str.pad04 j)) as Hr by now rewrite H.
  rewrite !read_decimal_pad04 in Hr. now injection Hr.
Qed.

(** X12.  Each page has a file name of its own: the zero-padded number in
    the name reads back as the page number, so two different pages never
    share a file, also beyond page 9999, and the names of pages 1 to 9999
    have exactly four digits. *)
Theorem page_path_distinct (img_dir : string) :
  (forall n, read_decimal (Str.pad04 n) = Some n)
  /\ (forall i j, page_path img_dir i = page_path img_dir j -> i = j)
  /\ (forall n, NoDup (page_paths img_dir n))
  /\ (forall n, (Z.of_nat n < 10000)%Z -> String.length (Str.pad04 n) = 4%nat).
Proof.
  split; [apply read_decimal_pad04 |]. split; [apply page_path_inj |]. split.
  - intros n. unfold page_paths. apply NoDup_fmap_2; [| apply NoDup_seq].
    intros i j. apply page_path_inj.
  - intros n Hn.
    assert (forallb (fun k => Nat.eqb (String.length (Str.pad04 k)) 4)
              (seq 0 (Z.to_nat 10000)) = true) as Hall by (vm_compute; reflexivity).
    rewrite forallb_forall in Hall.
    apply Nat.eqb_eq, Hall, in_seq. lia.
Qed.

Lemma page_path_distinct_witness : String.length (Str.pad04 12) = 4%nat.
Proof.
  apply (proj2 (proj2 (proj2 (page_path_distinct "gallica_bd6t54208770t/images")))).
  reflexivity.
Defined.

(* ===================================================================== *)
(** * Further properties of the canvas enumerator *)
(* ===================================================================== *)

(** X13.  For a manifest that is a JSON object: a non-empty ["sequences"]
    list decides alone, through the canvases of its first entry, whatever
    ["items"] holds, and a first entry without ["canvases"] gives no page
    even when ["items"] has some; ["items"] is used only when
    ["sequences"] is absent or empty; with neither there is no page. *)
Theorem iter_canvases_precedence (kvs : list (string * json)) :
  (forall skv more cs,
      Py.assoc "sequences" kvs = Some (JArr (JObj skv :: more)) ->
      Py.assoc "canvases" skv = Some (JArr cs) ->
      iter_canvases (JObj kvs) = Ok cs)
  /\ (forall skv more,
         Py.assoc "sequences" kvs = Some (JArr (JObj skv :: more)) ->
         Py.assoc "canvases" skv = None ->
         iter_canvases (JObj kvs) = Ok [])
  /\ (forall cs,
         Py.assoc "sequences" kvs = None \/ Py.assoc "sequences" kvs = Some (JArr []) ->
         Py.assoc "items" kvs = Some (JArr cs) ->
         iter_canvases (JObj kvs) = Ok cs)
  /\ (Py.assoc "sequences" kvs = None \/ Py.assoc "sequences" kvs = Some (JArr []) ->
      Py.assoc "items" kvs = None ->
      iter_canvases (JObj kvs) = Ok []).
Proof.
  unfold iter_canvases, Py.contains, Py.item, Py.get. repeat split.
  - intros skv more cs Hs Hc. rewrite Hs. simpl. now rewrite Hc.
  - intros skv more Hs Hc. rewrite Hs. simpl. now rewrite Hc.
  - intros cs [Hs | Hs] Hi; rewrite Hs, Hi; reflexivity.
  - intros [Hs | Hs] Hi; rewrite Hs, Hi; reflexivity.
Qed.

Lemma iter_canvases_precedence_witness :
  iter_canvases
    (JObj [("sequences", JArr [JObj [("label", JStr "s")]]);
           ("items", JArr two_canvases)])
  = Ok [].
Proof.
  apply (proj1 (proj2 (iter_canvases_precedence _)) [("label", JStr "s")] []);
    reflexivity.
Defined.

(** X14.  For a canvas that is a JSON object without usable ["images"]:
    whatever is found under ["items"], the function returns a value or
    raises the "no image service" error, and nothing else; and a value it
    returns that counts as false (such as [None]) can only come from a
    canvas with a non-empty ["items"], the v3 branch. *)
Theorem canvas_image_service_id_outcomes (kvs : list (string * json)) :
  (Py.truthy (default JNull (Py.assoc "images" kvs)) = false ->
   (exists v, canvas_image_service_id (JObj kvs) = Ok v)
   \/ canvas_image_service_id (JObj kvs) = Raise (RuntimeError no_service_error))
  /\ (forall v,
         canvas_image_service_id (JObj kvs) = Ok v ->
         Py.truthy v = false ->
         Py.truthy (default (JArr []) (Py.assoc "items" kvs)) = true).
Proof.
  split.
  - intros Himg. unfold canvas_image_service_id, service_id_v2.
    destruct (Py.assoc "images" kvs) as [imgs|] eqn:Ha; simpl in *; rewrite Ha;
      simpl; rewrite ?Himg; simpl;
      match goal with
      | |- context [match ?x with Some _ => _ | None => _ end] => destruct x
      end; [left; eauto | now right | left; eauto | now right].
  - intros v Hres Hfalse. unfold canvas_image_service_id in Hres.
    destruct (service_id_v2 (JObj kvs)) as [[sid|]|e] eqn:H2; simpl in Hres.
    + injection Hres as ->. apply service_id_v2_truthy in H2. congruence.
    + unfold Py.get in Hres. simpl in Hres.
      destruct (Py.truthy _); [reflexivity | discriminate].
    + discriminate.
Qed.

Lemma canvas_image_service_id_outcomes_witness :
  canvas_image_service_id (JObj [("items", JStr "page")])
  = Raise (RuntimeError no_service_error)
  \/ exists v, canvas_image_service_id (JObj [("items", JStr "page")]) = Ok v.
Proof.
  destruct (proj1 (canvas_image_service_id_outcomes [("items", JStr "page")]) eq_refl)
    as [H | H]; [now right | now left].
Defined.

(* ===================================================================== *)
(** * Further properties of the run *)
(* ===================================================================== *)

Lemma already_fetched_is (p : string) (w : world) :
  already_fetched p w = (Ok (is_fetched w p), w).
Proof. reflexivity. Qed.

Lemma build_jobs_cons (img_dir : string) (max_width : Z) (c : json) (cs : list json)
    (i : nat) (w : world) :
  build_jobs img_dir max_width i (c :: cs) w
  = if is_fetched w (page_path img_dir i)
    then build_jobs img_dir max_width (S i) cs w
    else match canvas_image_service_id c with
         | Raise e => (Raise e, w)
         | Ok sid =>
             match iiif_jpg_url sid max_width with
             | Raise e => (Raise e, w)
             | Ok url =>
                 match build_jobs img_dir max_width (S i) cs w with
                 | (Ok js, w1) => (Ok ((url, page_path img_dir i) :: js), w1)
                 | (Raise e, w1) => (Raise e, w1)
                 end
             end
         end.
Proof.
  cbn [build_jobs]. unfold mbind at 1. unfold M_bind at 1.
  rewrite already_fetched_is.
  destruct (is_fetched w (page_path img_dir i)); [reflexivity |].
  unfold lift. unfold mbind at 1. unfold M_bind at 1.
  destruct (canvas_image_service_id c) as [sid|e]; [| reflexivity].
  unfold mbind at 1. unfold M_bind at 1.
  destruct (iiif_jpg_url sid max_width) as [url|e]; [| reflexivity].
  unfold mbind at 1. unfold M_bind at 1.
  destruct (build_jobs img_dir max_width (S i) cs w) as [[js|e] w1]; reflexivity.
Qed.

Lemma build_jobs_spec (img_dir : string) (max_width : Z) (canvases : list json)
    (i : nat) (w : world) :
  (build_jobs img_dir max_width i canvases w).2 = w
  /\ forall jobs,
       (build_jobs img_dir max_width i canvases w).1 = Ok jobs ->
       map snd jobs
       = List.filter (fun p => negb (is_fetched w p))
           (map (page_path img_dir) (seq i (length canvases))).
Proof.
  revert i. induction canvases as [|c cs IH]; intros i.
  - simpl. split; [reflexivity |]. now intros jobs [= <-].
  - rewrite build_jobs_cons. cbn [length seq map List.filter].
    destruct (IH (S i)) as [Hw Hj].
    destruct (is_fetched w (page_path img_dir i)); cbn [negb].
    + split; [exact Hw | exact Hj].
    + destruct (canvas_image_service_id c) as [sid|e]; [| split; [auto | discriminate]].
      destruct (iiif_jpg_url sid max_width) as [url|e]; [| split; [auto | discriminate]].
      destruct (build_jobs img_dir max_width (S i) cs w) as [[js|e] w1];
        simpl in *; subst w1; (split; [reflexivity |]).
      * intros jobs [= <-]. simpl. f_equal. now apply Hj.
      * discriminate.
Qed.

(** X15.  The jobs are built for the pages not yet fetched and only for
    them, in ascending page order, without touching the world; and a
    canvas whose page is already fetched is not inspected at all, so when
    every page is fetched there is no job, however malformed the canvases
    are. *)
Theorem build_jobs_skips_fetched (img_dir : string) (max_width : Z)
    (canvases : list json) (w : world) :
  (forall jobs w',
      build_jobs img_dir max_width 1 canvases w = (Ok jobs, w') ->
      w' = w
      /\ map snd jobs
         = List.filter (fun p => negb (is_fetched w p))
             (page_paths img_dir (length canvases)))
  /\ (Forall (fun p => is_fetched w p = true) (page_paths img_dir (length canvases)) ->
      build_jobs img_dir max_width 1 canvases w = (Ok [], w)).
Proof.
  split.
  - intros jobs w' H. destruct (build_jobs_spec img_dir max_width canvases 1 w) as [Hw Hj].
    rewrite H in Hw, Hj. simpl in *. split; [auto |]. now apply Hj.
  - unfold page_paths. generalize 1%nat.
    induction canvases as [|c cs IH]; intros i Hall; [reflexivity |].
    cbn [length seq map] in Hall. inversion Hall as [|? ? Hc Hcs]; subst.
    rewrite build_jobs_cons, Hc. now apply IH.
Qed.

Lemma build_jobs_skips_fetched_witness :
  build_jobs "gallica_bd6t54208770t/images" 2000 1 [JNull]
    (after_first_run large_body)
  = (Ok [], after_first_run large_body).
Proof.
  apply (proj2 (build_jobs_skips_fetched "gallica_bd6t54208770t/images" 2000 [JNull]
                  (after_first_run large_body))).
  constructor; [vm_compute; reflexivity | constructor].
Defined.

Section AssemblyMore.

Variable E : env.

Lemma read_images_world (ps : list string) (w : world) : (read_images ps w).2 = w.
Proof.
  induction ps as [|p ps IH]; [reflexivity |].
  cbn [read_images]. unfold mbind, M_bind, read_image.
  destruct (fs w !! p) as [[d|]|]; try reflexivity.
  destruct (read_images ps w) as [[ds|e] w1]; simpl in *; now subst.
Qed.

Lemma pil_open_all_world (ps : list string) (w : world) : (pil_open_all E ps w).2 = w.
Proof.
  induction ps as [|p ps IH]; [reflexivity |].
  cbn [pil_open_all]. unfold mbind at 1. unfold M_bind at 1.
  unfold pil_open_rgb, mbind, M_bind, read_image.
  destruct (fs w !! p) as [[d|]|]; try reflexivity.
  destruct (pillow_decodes E d); [| reflexivity]. simpl.
  destruct (pil_open_all E ps w) as [[ims|e] w1]; simpl in *; now subst.
Qed.

Lemma assemble_img2pdf_unfold (images : list string) (out_pdf : string) (w : world) :
  assemble_img2pdf E images out_pdf w
  = if has_img2pdf E then
      let w0 := set_fs (<[out_pdf := FBytes []]> (fs w)) w in
      match (read_images images w0).1 with
      | Ok ds =>
          if img2pdf_accepts E ds
          then (Ok tt, set_fs (<[out_pdf := FPdf (zip_with embedded images ds)]> (fs w0)) w0)
          else (Raise (ValueError "img2pdf"), w0)
      | Raise e => (Raise e, w0)
      end
    else (Raise ImportError, w).
Proof.
  unfold assemble_img2pdf. destruct (has_img2pdf E); [| reflexivity].
  unfold mbind at 1. unfold M_bind at 1. unfold write_file at 1.
  unfold mbind at 1. unfold M_bind at 1. unfold img2pdf_convert.
  unfold mbind at 1. unfold M_bind at 1.
  pose proof (read_images_world images (set_fs (<[out_pdf:=FBytes []]> (fs w)) w)) as Hw.
  cbv zeta.
  destruct (read_images images _) as [[ds|e] w1]; simpl in Hw; subst w1; simpl;
    [| reflexivity].
  destruct (img2pdf_accepts E ds); reflexivity.
Qed.

Lemma assemble_pillow_unfold (images : list string) (out_pdf : string) (w : world) :
  assemble_pillow E images out_pdf w
  = if has_pillow E then
      match (pil_open_all E images w).1 with
      | Ok [] => (Raise IndexError, w)
      | Ok (first :: rest) =>
          (Ok tt, set_fs (<[out_pdf := FPdf (first :: rest)]> (fs w)) w)
      | Raise e => (Raise e, w)
      end
    else (Raise ImportError, w).
Proof.
  unfold assemble_pillow. destruct (has_pillow E); [| reflexivity].
  unfold mbind at 1. unfold M_bind at 1.
  pose proof (pil_open_all_world images w) as Hw.
  destruct (pil_open_all E images w) as [[[|first rest]|e] w1]; simpl in Hw; subst w1;
    reflexivity.
Qed.

(** The primary strategy leaves the output file empty when it raises
    after opening it, and touches no other file. *)
Lemma assemble_img2pdf_fs (images : list string) (out_pdf : string) (w : world) :
  (forall p, p <> out_pdf ->
     fs (assemble_img2pdf E images out_pdf w).2 !! p = fs w !! p)
  /\ (has_img2pdf E = true ->
      forall e, (assemble_img2pdf E images out_pdf w).1 = Raise e ->
      fs (assemble_img2pdf E images out_pdf w).2 !! out_pdf = Some (FBytes [])).
Proof.
  rewrite assemble_img2pdf_unfold.
  destruct (has_img2pdf E); [| split; [reflexivity | discriminate]].
  cbv zeta.
  destruct (read_images images _).1 as [ds|e].
  - destruct (img2pdf_accepts E ds); simpl.
    + split; [| discriminate]. intros p Hp.
      now rewrite !lookup_insert_ne by congruence.
    + split; [intros p Hp; now rewrite lookup_insert_ne by congruence |].
      intros _ e _. apply lookup_insert_eq.
  - simpl. split; [intros p Hp; now rewrite lookup_insert_ne by congruence |].
    intros _ e' _. apply lookup_insert_eq.
Qed.

(** The fallback changes the file system only when it succeeds, and then
    only at the output. *)
Lemma assemble_pillow_fs (images : list string) (out_pdf : string) (w : world) :
  (forall p, p <> out_pdf ->
     fs (assemble_pillow E images out_pdf w).2 !! p = fs w !! p)
  /\ (forall e, (assemble_pillow E images out_pdf w).1 = Raise e ->
      (assemble_pillow E images out_pdf w).2 = w).
Proof.
  rewrite assemble_pillow_unfold.
  destruct (has_pillow E); [| split; reflexivity].
  destruct (pil_open_all E images w).1 as [[|first rest]|e]; simpl.
  - split; reflexivity.
  - split; [intros p Hp; now rewrite lookup_insert_ne by congruence | discriminate].
  - split; reflexivity.
Qed.

Lemma assemble_pdf_fs (images : list string) (out_pdf : string) (w : world) :
  (forall p, p <> out_pdf ->
     fs (assemble_pdf E images out_pdf w).2 !! p = fs w !! p)
  /\ (has_img2pdf E = true ->
      forall e, (assemble_pdf E images out_pdf w).1 = Raise e ->
      fs (assemble_pdf E images out_pdf w).2 !! out_pdf = Some (FBytes [])
      /\ exists e2, e = RuntimeError (assemble_error e2)).
Proof.
  rewrite assemble_pdf_unfold.
  destruct (assemble_img2pdf_fs images out_pdf w) as [H1 H1'].
  destruct (assemble_img2pdf E images out_pdf w) as [[[]|e1] w1]; simpl in *.
  - split; [exact H1 | discriminate].
  - destruct (assemble_pillow_fs images out_pdf w1) as [H2 H2'].
    destruct (assemble_pillow E images out_pdf w1) as [[[]|e2] w2]; simpl in *.
    + split; [| discriminate]. intros p Hp. now rewrite H2, H1.
    + split; [intros p Hp; now rewrite H2, H1 |].
      intros Hhas e [= <-]. rewrite (H2' e2 eq_refl).
      split; [exact (H1' Hhas e1 eq_refl) | eauto].
Qed.

End AssemblyMore.

Lemma filter_absent_nil (files : gmap string file) (ps : list string) :
  filter (fun p => files !! p = None) ps = [] ->
  Forall (fun p => is_Some (files !! p)) ps.
Proof.
  induction ps as [|p ps IH]; [constructor |].
  rewrite filter_cons. destruct (decide (files !! p = None)) as [Hn | Hs];
    [discriminate |].
  intros H. constructor; [| auto].
  destruct (files !! p); [eauto | contradiction].
Qed.

(** X16.  No partial document: when the run from the canvases to the PDF
    succeeds, the file of every page, from page 1 to the last canvas,
    exists. *)
Theorem download_and_assemble_complete (E : env) (a : args) (img_dir out_pdf : string)
    (canvases : list json) (order : list nat) (w w' : world) :
  download_and_assemble E a img_dir out_pdf canvases order w = (Ok tt, w') ->
  Forall (fun p => is_Some (fs w' !! p)) (page_paths img_dir (length canvases)).
Proof.
  unfold download_and_assemble. unfold mbind, M_bind. intros Hrun.
  destruct (build_jobs img_dir (arg_max_width a) 1 canvases w)
    as [[jobs|e] w1]; [| discriminate].
  destruct (parallel_download E jobs order (arg_sleep a) w1)
    as [[[]|e] w2]; [| discriminate].
  unfold missing_images in Hrun.
  destruct (filter _ _) as [|m ms] eqn:Hmiss; [| discriminate].
  apply filter_absent_nil in Hmiss.
  destruct (assemble_pdf_fs E (page_paths img_dir (length canvases)) out_pdf w2) as [Hother _].
  pose proof (assemble_pdf_order E _ _ _ _ Hrun) as (pages & Hout & _).
  rewrite Hrun in Hother. simpl in Hother.
  eapply Forall_impl; [exact Hmiss |]. intros p Hp. simpl in Hp.
  destruct (decide (p = out_pdf)) as [-> | Hne]; [rewrite Hout; eauto |].
  now rewrite Hother.
Qed.

Lemma download_and_assemble_complete_witness :
  Forall (fun p => is_Some (fs two_page_run.2 !! p)) (page_paths "w/images" 2).
Proof.
  apply (download_and_assemble_complete (env_always 200 small_body) sample_args
           "w/images" "out.pdf" two_canvases [1%nat; 0%nat] empty_world
           two_page_run.2 eq_refl).
Defined.



(* ===================================================================== *)
(** * Further properties of the workspace cleaner *)
(* ===================================================================== *)

(** X18.  When the guard lets the resolved path [p] through: if [p]
    exists, [safe_rmtree] returns [True] and removes [p] with everything
    below it and nothing else; if [p] does not exist, the error of
    [rmtree] is raised and nothing changes. *)
Theorem safe_rmtree_removes_subtree (o : Cleaner.os) (workdir ark : string)
    (st : Cleaner.state) :
  let p := Cleaner.resolve o workdir in
  p ∉ Cleaner.forbidden o ->
  Cleaner.name p = Cleaner.expected_name ark ->
  (p ∈ Cleaner.tree st ->
   (Cleaner.safe_rmtree o workdir ark st).1 = Ok true
   /\ forall q, q ∈ Cleaner.tree (Cleaner.safe_rmtree o workdir ark st).2
                <-> q ∈ Cleaner.tree st /\ ~ (p `prefix_of` q))
  /\ (p ∉ Cleaner.tree st ->
      Cleaner.safe_rmtree o workdir ark st = (Raise OSError, st)).
Proof.
  intros p Hf Hn. split.
  - intros Hin. now apply safe_rmtree_deletes.
  - intros Hout. unfold Cleaner.safe_rmtree. fold p.
    rewrite bool_decide_eq_false_2 by assumption.
    rewrite Hn, String.eqb_refl. simpl.
    unfold Cleaner.rmtree. now rewrite bool_decide_eq_false_2 by assumption.
Qed.

Lemma safe_rmtree_removes_subtree_witness :
  Cleaner.safe_rmtree sample_os "gallica_y" "y" sample_tree = (Raise OSError, sample_tree).
Proof.
  apply (proj2 (safe_rmtree_removes_subtree sample_os "gallica_y" "y" sample_tree
                  ltac:(refine (bool_decide_unpack _ _); vm_compute; exact I) eq_refl)).
  refine (bool_decide_unpack _ _). vm_compute. exact I.
Defined.
